(** * A shallow embedding of [homework.py], the homework-status Telegram bot.

    The bot polls a review-status API, turns the newest submission into a
    text, and sends that text to a chat unless it equals the text sent last.
    Every function of the module is a Rocq function of the same name.  What
    the outside world answers (the HTTP request, the JSON decoder, the
    Telegram client) is an explicit input of the cycle that asks for it, and
    what the program does to the outside world is a list of events. *)

From Stdlib Require Import String Ascii List ZArith Bool Lia.
From Stdlib Require Import Floats.SpecFloat DecimalString.
Import ListNotations.
Open Scope string_scope.
Set Warnings "-register-all".

(** ** Python values *)

(** The values [Response.json()] can build.  A [dict] is kept as an
    association list in insertion order whose first binding of a key is the
    one that counts; a floating-point number is kept as its IEEE-754
    description, of which only "is it a zero" is ever inspected. *)
Inductive pyval : Type :=
| PNone
| PBool (b : bool)
| PInt (z : Z)
| PFloat (f : spec_float)
| PStr (s : string)
| PList (l : list pyval)
| PDict (d : list (string * pyval)).

(** [type(v).__name__] *)
Definition type_name (v : pyval) : string :=
  match v with
  | PNone => "NoneType"
  | PBool _ => "bool"
  | PInt _ => "int"
  | PFloat _ => "float"
  | PStr _ => "str"
  | PList _ => "list"
  | PDict _ => "dict"
  end.

(** [str(type(v))], as an f-string renders [{type(v)}] *)
Definition class_repr (v : pyval) : string :=
  "<class '" ++ type_name v ++ "'>".

(** Truth value of [v] in a condition ([if v], [not v], [all]). *)
Definition truthy (v : pyval) : bool :=
  match v with
  | PNone => false
  | PBool b => b
  | PInt z => negb (Z.eqb z 0)
  | PFloat (S754_zero _) => false
  | PFloat _ => true
  | PStr s => negb (s =? "")
  | PList l => match l with [] => false | _ :: _ => true end
  | PDict d => match d with [] => false | _ :: _ => true end
  end.

Fixpoint dict_get (d : list (string * pyval)) (k : string) : option pyval :=
  match d with
  | [] => None
  | (k', v) :: rest => if k' =? k then Some v else dict_get rest k
  end.

Definition dict_has (d : list (string * pyval)) (k : string) : bool :=
  match dict_get d k with Some _ => true | None => false end.

(** [needle in hay] for two strings: substring test. *)
Definition contains (needle hay : string) : bool :=
  match index 0 needle hay with Some _ => true | None => false end.

Definition is_str (k : string) (v : pyval) : bool :=
  match v with PStr s => s =? k | _ => false end.

(** The double quote, which the messages of the source carry around names. *)
Definition dq : string := String "034"%char EmptyString.

Definition str_of_int (z : Z) : string := NilZero.string_of_int (Z.to_int z).

(** ** Exceptions *)

Inductive exn : Type :=
| ConnectionError (msg : string)
| TypeError (msg : string)
| KeyError (arg_repr : string)
| ValueError (msg : string)
| AttributeError (msg : string)
| UnboundLocalError (var : string)
| IndexError (msg : string)
| JSONDecodeError (msg : string).

(** [repr] of a [str] that has no apostrophe, no backslash and printable
    characters only, as every literal of the module that goes through it. *)
Definition repr_literal (s : string) : string := "'" ++ s ++ "'".

(** [str(error)], as [f'...{error}'] renders a caught exception.  A
    [KeyError] prints the [repr] of its argument, which the constructor
    holds.  [UnboundLocalError] has the wording of CPython up to 3.10. *)
Definition str_exn (e : exn) : string :=
  match e with
  | ConnectionError m => m
  | TypeError m => m
  | KeyError r => r
  | ValueError m => m
  | AttributeError m => m
  | UnboundLocalError x =>
      "local variable '" ++ x ++ "' referenced before assignment"
  | IndexError m => m
  | JSONDecodeError m => m
  end.

Inductive result (A : Type) : Type :=
| Ok (a : A)
| Raise (e : exn).
Arguments Ok {A} a.
Arguments Raise {A} e.

(** ** Events *)

Inductive level : Type := DEBUG | INFO | ERROR | CRITICAL.

Inductive event : Type :=
| Log (l : level) (msg : string)
| RequestsGet (url : string) (authorization : string) (params : pyval)
| BotInit (token : option string)
| BotSendMessage (chat_id : option string) (text : string)
| Sleep (seconds : Z)
| SysExit.

(** A computation that logs and calls out, and returns or raises. *)
Definition io (A : Type) : Type := (list event * result A)%type.

Definition io_ret {A} (a : A) : io A := ([], Ok a).
Definition io_bind {A B} (m : io A) (f : A -> io B) : io B :=
  match m with
  | (ev, Raise e) => (ev, Raise e)
  | (ev, Ok a) => let (ev', r) := f a in ((ev ++ ev')%list, r)
  end.
Definition io_emit (e : event) : io unit := ([e], Ok tt).
Definition io_raise {A} (e : exn) : io A := ([], Raise e).
Definition io_lift {A} (r : result A) : io A := ([], r).

Definition bind {A B} (m : result A) (f : A -> result B) : result B :=
  match m with
  | Ok a => f a
  | Raise e => Raise e
  end.

Declare Scope result_scope.
Delimit Scope result_scope with result.
Declare Scope io_scope.
Delimit Scope io_scope with io.
Notation "x <- m ;; k" := (bind m (fun x => k))
  (at level 100, m at next level, right associativity) : result_scope.
Notation "x <- m ;; k" := (io_bind m (fun x => k))
  (at level 100, m at next level, right associativity) : io_scope.
Notation "m ;; k" := (io_bind m (fun _ => k))
  (at level 100, right associativity) : io_scope.

(** ** Operators of the language the module uses *)

(** [needle in c] with a [str] on the left. *)
Definition py_in (needle : string) (c : pyval) : result bool :=
  match c with
  | PStr s => Ok (contains needle s)
  | PList l => Ok (existsb (is_str needle) l)
  | PDict d => Ok (dict_has d needle)
  | _ => Raise (TypeError
                  ("argument of type '" ++ type_name c ++ "' is not iterable"))
  end.

(** [c[key]] with a literal [str] key. *)
Definition py_getitem (c : pyval) (key : string) : result pyval :=
  match c with
  | PDict d =>
      match dict_get d key with
      | Some v => Ok v
      | None => Raise (KeyError (repr_literal key))
      end
  | PStr _ => Raise (TypeError "string indices must be integers")
  | PList _ =>
      Raise (TypeError "list indices must be integers or slices, not str")
  | _ => Raise (TypeError
                  ("'" ++ type_name c ++ "' object is not subscriptable"))
  end.

(** [l[n]] on a list, for an index that is not negative. *)
Definition list_getitem (l : list pyval) (n : nat) : result pyval :=
  match nth_error l n with
  | Some v => Ok v
  | None => Raise (IndexError "list index out of range")
  end.

(** [c.get(key)]: only a [dict] has the method. *)
Definition py_get (c : pyval) (key : string) : result pyval :=
  match c with
  | PDict d =>
      Ok (match dict_get d key with Some v => v | None => PNone end)
  | _ => Raise (AttributeError
                  ("'" ++ type_name c ++ "' object has no attribute 'get'"))
  end.

(** ** Module constants *)

(** The three values [os.getenv] returned when the module was loaded. *)
Record environ : Type := {
  PRACTICUM_TOKEN : option string;
  TELEGRAM_TOKEN : option string;
  TELEGRAM_CHAT_ID : option string
}.

Definition RETRY_PERIOD : Z := 600.
Definition ENDPOINT : string :=
  "https://practicum.yandex.ru/api/user_api/homework_statuses/".

(** [f'OAuth {PRACTICUM_TOKEN}'] *)
Definition HEADERS (env : environ) : string :=
  "OAuth " ++ match PRACTICUM_TOKEN env with Some t => t | None => "None" end.

Definition HOMEWORK_VERDICTS : list (string * string) :=
  [ ("approved", "Работа проверена: ревьюеру всё понравилось. Ура!");
    ("reviewing", "Работа взята на проверку ревьюером.");
    ("rejected", "Работа проверена: у ревьюера есть замечания.") ].

Fixpoint verdict_of (t : list (string * string)) (k : string) : option string :=
  match t with
  | [] => None
  | (k', v) :: rest => if k' =? k then Some v else verdict_of rest k
  end.

(** [v in HOMEWORK_VERDICTS]: the key is hashed first, which a [list] or a
    [dict] refuses; a hashable value that is not a [str] equals no key. *)
Definition in_verdicts (v : pyval) : result bool :=
  match v with
  | PList _ | PDict _ =>
      Raise (TypeError ("unhashable type: '" ++ type_name v ++ "'"))
  | PStr s =>
      Ok (match verdict_of HOMEWORK_VERDICTS s with
          | Some _ => true | None => false end)
  | _ => Ok false
  end.

(** ** The functions of the module *)

Section Homework.

(** [repr(v)]: the interpreter's rendering of numbers, lists, dictionaries
    and arbitrary strings is not part of the module and is taken as given.
    For a value that is not a [str], [str(v)] is [repr(v)]. *)
Variable py_repr : pyval -> string.

(** [f'{v}'] *)
Definition py_format (v : pyval) : string :=
  match v with
  | PStr s => s
  | _ => py_repr v
  end.

(** [HOMEWORK_VERDICTS[v]] *)
Definition verdicts_getitem (v : pyval) : result string :=
  match v with
  | PList _ | PDict _ =>
      Raise (TypeError ("unhashable type: '" ++ type_name v ++ "'"))
  | PStr s =>
      match verdict_of HOMEWORK_VERDICTS s with
      | Some t => Ok t
      | None => Raise (KeyError (py_repr v))
      end
  | _ => Raise (KeyError (py_repr v))
  end.

Variable env : environ.

Definition getenv_truthy (v : option string) : bool :=
  match v with
  | None => false
  | Some s => truthy (PStr s)
  end.

Definition check_tokens : bool :=
  forallb getenv_truthy
          [PRACTICUM_TOKEN env; TELEGRAM_TOKEN env; TELEGRAM_CHAT_ID env].

(** What [bot.send_message] does when called: the transport delivers the
    text or raises a [TelegramError], the one failure it has. *)
Inductive send_outcome : Type :=
| Delivered
| TelegramError (error : string).

Definition send_message (message : string) (o : send_outcome) : io unit :=
  (io_emit (Log INFO "Отправка сообщения в чат") ;;
   io_emit (BotSendMessage (TELEGRAM_CHAT_ID env) message) ;;
   match o with
   | Delivered => io_emit (Log DEBUG "Сообщение отправлено")
   | TelegramError error =>
       io_emit (Log ERROR ("Ошибка отправки сообщения: " ++ error))
   end)%io.

(** What [Response.json()] does when called. *)
Inductive json_outcome : Type :=
| Decoded (v : pyval)
| DecodeFails (error : string).

(** What [requests.get] does when called: it raises a
    [requests.RequestException] or returns a response. *)
Inductive http_outcome : Type :=
| RequestException (error : string)
| Response (status_code : Z) (json : json_outcome).

Definition HTTPStatus_OK : Z := 200.

Definition get_api_answer (timestamp : pyval) (o : http_outcome) : io pyval :=
  (io_emit (RequestsGet ENDPOINT (HEADERS env) timestamp) ;;
   match o with
   | RequestException error =>
       (* the handler logs and falls through: [homeworks] was never bound *)
       io_emit (Log ERROR ("Ошибка при запросе к эндпоинту: " ++ error)) ;;
       io_raise (UnboundLocalError "homeworks")
   | Response status_code json =>
       if negb (status_code =? HTTPStatus_OK)%Z then
         io_raise (ConnectionError
                     ("Эндпоинт " ++ ENDPOINT ++ " недоступен. " ++
                      "Код ответа API: " ++ str_of_int status_code))
       else
         match json with
         | Decoded v => io_ret v
         | DecodeFails error => io_raise (JSONDecodeError error)
         end
   end)%io.

(** The two tests on [type(...)] are the two pattern matchings. *)
Definition check_response (response : pyval) : result pyval :=
  match response with
  | PDict _ =>
      (has_homeworks <- py_in "homeworks" response ;;
       if negb has_homeworks then
         Raise (KeyError
                  (repr_literal ("Отсутствует ключ " ++ dq ++ "homeworks" ++ dq)))
       else
       homeworks <- py_getitem response "homeworks" ;;
       match homeworks with
       | PList l =>
           if negb (truthy homeworks) then Ok (PDict [])
           else list_getitem l 0
       | _ =>
           Raise (TypeError
                    ("Некорректный тип данных " ++ class_repr homeworks))
       end)%result
  | _ =>
      Raise (TypeError ("Некорректный тип данных: " ++ class_repr response))
  end.

Definition NOT_CHANGED : string := "Статус проверки работы не изменился".

Definition status_changed (homework_name : pyval) (verdict : string) : string :=
  "Изменился статус проверки работы " ++
  dq ++ py_format homework_name ++ dq ++ ". " ++ verdict.

Definition parse_status (homework : pyval) : io string :=
  (message <- io_lift
     (if truthy homework then
        (has_name <- py_in "homework_name" homework ;;
         if negb has_name then
           Raise (KeyError (repr_literal
                    ("Отсутствует ключ " ++ dq ++ "homework_name" ++ dq)))
         else
         has_status <- py_in "status" homework ;;
         if negb has_status then
           Raise (KeyError (repr_literal
                    ("Отсутствует ключ " ++ dq ++ "status" ++ dq)))
         else
         status <- py_getitem homework "status" ;;
         if negb (truthy status) then
           Raise (ValueError "Статус проверки работы пуст")
         else
         known <- in_verdicts status ;;
         if negb known then
           Raise (KeyError (repr_literal
                    "Статус проверки не соответствует ожидаемым вариантам"))
         else
         homework_name <- py_getitem homework "homework_name" ;;
         status <- py_getitem homework "status" ;;
         verdict <- verdicts_getitem status ;;
         Ok (status_changed homework_name verdict))%result
      else Ok NOT_CHANGED) ;;
   io_emit (Log DEBUG message) ;;
   io_ret message)%io.

(** *** The poll loop *)

(** The two local variables of [main] that live across iterations. *)
Record locals : Type := {
  timestamp : pyval;
  previous_message : string
}.

(** What the outside world answers during one iteration. *)
Record cycle_input : Type := {
  http : http_outcome;
  telegram : send_outcome
}.

(** A statement of the loop body: it logs and calls out, may assign to the
    locals, and completes or raises; an assignment made before a [raise]
    stays made. *)
Definition stmt (A : Type) : Type := locals -> (list event * locals * result A).

Definition s_ret {A} (a : A) : stmt A := fun s => ([], s, Ok a).
Definition s_bind {A B} (m : stmt A) (f : A -> stmt B) : stmt B :=
  fun s =>
    match m s with
    | (ev, s1, Raise e) => (ev, s1, Raise e)
    | (ev, s1, Ok a) =>
        match f a s1 with
        | (ev', s2, r) => ((ev ++ ev')%list, s2, r)
        end
    end.
Definition s_io {A} (m : io A) : stmt A := fun s => (fst m, s, snd m).
Definition s_result {A} (r : result A) : stmt A := fun s => ([], s, r).
Definition s_read {A} (f : locals -> A) : stmt A := fun s => ([], s, Ok (f s)).
Definition set_timestamp (v : pyval) : stmt unit :=
  fun s => ([], {| timestamp := v; previous_message := previous_message s |}, Ok tt).
Definition set_previous_message (m : string) : stmt unit :=
  fun s => ([], {| timestamp := timestamp s; previous_message := m |}, Ok tt).

(** [try: body except Exception as error: handler(error)] *)
Definition try_except {A} (body : stmt A) (handler : exn -> stmt A) : stmt A :=
  fun s =>
    match body s with
    | (ev, s1, Ok a) => (ev, s1, Ok a)
    | (ev, s1, Raise e) =>
        match handler e s1 with
        | (ev', s2, r) => ((ev ++ ev')%list, s2, r)
        end
    end.

(** [try: body finally: final]; the [continue] statements of the body also
    leave through [final]. *)
Definition try_finally {A} (body : stmt A) (final : stmt unit) : stmt A :=
  fun s =>
    match body s with
    | (ev, s1, r) =>
        match final s1 with
        | (ev', s2, Ok _) => ((ev ++ ev')%list, s2, r)
        | (ev', s2, Raise e) => ((ev ++ ev')%list, s2, Raise e)
        end
    end.

Declare Scope stmt_scope.
Delimit Scope stmt_scope with stmt.
Notation "x <- m ;; k" := (s_bind m (fun x => k))
  (at level 100, m at next level, right associativity) : stmt_scope.
Notation "m ;; k" := (s_bind m (fun _ => k))
  (at level 100, right associativity) : stmt_scope.

(** [{'from_date': v}] *)
Definition from_date_params (v : pyval) : pyval := PDict [("from_date", v)].

(** Lines 124-134: the body of the [try]. *)
Definition try_body (i : cycle_input) : stmt unit :=
  (ts <- s_read timestamp ;;
   response <- s_io (get_api_answer ts (http i)) ;;
   current_date <- s_result (py_get response "current_date") ;;
   set_timestamp (from_date_params current_date) ;;
   homework <- s_result (check_response response) ;;
   message <- s_io (parse_status homework) ;;
   previous <- s_read previous_message ;;
   if message =? previous then s_ret tt (* continue *)
   else
     s_io (send_message message (telegram i)) ;;
     set_previous_message message)%stmt.

(** Lines 136-142: the handler of the [try]. *)
Definition except_body (i : cycle_input) (error : exn) : stmt unit :=
  (let message := "Сбой в работе программы: " ++ str_exn error in
   s_io (io_emit (Log ERROR message)) ;;
   previous <- s_read previous_message ;;
   if message =? previous then s_ret tt (* continue *)
   else
     s_io (send_message message (telegram i)) ;;
     set_previous_message message)%stmt.

(** One iteration of [while True]. *)
Definition cycle (i : cycle_input) : stmt unit :=
  try_finally (try_except (try_body i) (except_body i))
              (s_io (io_emit (Sleep RETRY_PERIOD))).

(** The locals an iteration leaves, and its events. *)
Definition after (i : cycle_input) (s : locals) : locals := snd (fst (cycle i s)).
Definition events_of (i : cycle_input) (s : locals) : list event :=
  fst (fst (cycle i s)).

(** The loop run on the answers of the first [length inputs] iterations:
    the events of these iterations and the locals they leave. *)
Fixpoint poll_loop (inputs : list cycle_input) (s : locals)
  : list event * locals :=
  match inputs with
  | [] => ([], s)
  | i :: rest =>
      match cycle i s with
      | (ev, s1, Ok _) =>
          let (ev', s2) := poll_loop rest s1 in ((ev ++ ev')%list, s2)
      | (ev, s1, Raise _) => (ev, s1)
      end
  end.

Definition initial_locals (now : Z) : locals :=
  {| timestamp := from_date_params (PInt now); previous_message := "" |}.

(** [main], with [now] the value of [int(time.time())]: the events of the
    run up to the end of the iterations [inputs] answers. *)
Definition main (now : Z) (inputs : list cycle_input) : list event :=
  if negb check_tokens then
    [ Log CRITICAL ("Отсутствуют обязательные переменные окружения! " ++
                    "Работа программы принудительно завершена");
      SysExit ]
  else
    BotInit (TELEGRAM_TOKEN env)
    :: Log INFO "Бот запущен!"
    :: fst (poll_loop inputs (initial_locals now)).

(** *** The iteration in closed form *)

(** The message an iteration compares with the last one sent: the text of
    [parse_status], or the report of the exception caught. *)
Definition failure_report (error : exn) : string :=
  "Сбой в работе программы: " ++ str_exn error.

(** The try body up to the comparison, as a function of the cursor and of
    the answer of the API: its events, the value assigned to the cursor if
    the assignment was reached, and the message or the exception. *)
Definition attempt (ts : pyval) (o : http_outcome)
  : list event * option pyval * result string :=
  match get_api_answer ts o with
  | (ev, Raise e) => (ev, None, Raise e)
  | (ev, Ok response) =>
      match py_get response "current_date" with
      | Raise e => (ev, None, Raise e)
      | Ok current_date =>
          match check_response response with
          | Raise e => (ev, Some current_date, Raise e)
          | Ok homework =>
              let (ev', r) := parse_status homework in
              ((ev ++ ev')%list, Some current_date, r)
          end
      end
  end.

Definition assigned (cur : option pyval) (s : locals) : locals :=
  match cur with
  | Some c => {| timestamp := from_date_params c;
                 previous_message := previous_message s |}
  | None => s
  end.

Definition candidate (r : result string) : string :=
  match r with Ok m => m | Raise e => failure_report e end.

Definition report_log (r : result string) : list event :=
  match r with Ok _ => [] | Raise e => [Log ERROR (failure_report e)] end.

(** The message of an iteration as a function of the answer of the API
    alone: the cursor only goes into the request. *)
Definition message_of (o : http_outcome) : string :=
  candidate (snd (attempt PNone o)).

End Homework.

(** ** Observations on a run *)

(** The texts the Notifier was invoked with, in order. *)
Fixpoint sends (ev : list event) : list string :=
  match ev with
  | [] => []
  | BotSendMessage _ text :: rest => text :: sends rest
  | _ :: rest => sends rest
  end.

(** The query parameters of the requests made, in order. *)
Fixpoint requests (ev : list event) : list pyval :=
  match ev with
  | [] => []
  | RequestsGet _ _ params :: rest => params :: requests rest
  | _ :: rest => requests rest
  end.

(** No two neighbours of the list are equal. *)
Fixpoint no_repeat (l : list string) : Prop :=
  match l with
  | [] => True
  | a :: rest =>
      match rest with
      | [] => True
      | b :: _ => a <> b /\ no_repeat rest
      end
  end.

(** ** Example values *)

(** A rendering for the examples: exact on [None], [bool] and [int]; the
    examples render nothing else. *)
Definition example_repr (v : pyval) : string :=
  match v with
  | PNone => "None"
  | PBool true => "True"
  | PBool false => "False"
  | PInt z => str_of_int z
  | _ => "<" ++ type_name v ++ ">"
  end.

Definition example_env : environ :=
  {| PRACTICUM_TOKEN := Some "practicum-token";
     TELEGRAM_TOKEN := Some "telegram-token";
     TELEGRAM_CHAT_ID := Some "42" |}.

Definition env_without_chat : environ :=
  {| PRACTICUM_TOKEN := Some "practicum-token";
     TELEGRAM_TOKEN := Some "telegram-token";
     TELEGRAM_CHAT_ID := None |}.

Definition submission (name status : string) : pyval :=
  PDict [("homework_name", PStr name); ("status", PStr status)].

(** [{"current_date": 200, "homeworks": [{"homework_name": "hw1",
    "status": "approved"}]}] *)
Definition response_B : pyval :=
  PDict [("current_date", PInt 200);
         ("homeworks", PList [submission "hw1" "approved"])].

(** [{"current_date": 300, "homeworks": [{"homework_name": "hw1",
    "status": "bogus"}]}] *)
Definition response_C : pyval :=
  PDict [("current_date", PInt 300);
         ("homeworks", PList [submission "hw1" "bogus"])].

(** [{"current_date": 400, "homeworks": [{}]}] *)
Definition response_empty_record : pyval :=
  PDict [("current_date", PInt 400); ("homeworks", PList [PDict []])].

(** [{"homeworks": []}] *)
Definition response_without_date : list (string * pyval) :=
  [("homeworks", PList [])].

Definition answered (response : pyval) : cycle_input :=
  {| http := Response 200 (Decoded response); telegram := Delivered |}.

Definition answered_undelivered (response : pyval) : cycle_input :=
  {| http := Response 200 (Decoded response);
     telegram := TelegramError "Timed out" |}.

Definition message_B : string :=
  "Изменился статус проверки работы " ++ dq ++ "hw1" ++ dq ++
  ". Работа проверена: ревьюеру всё понравилось. Ура!".

(** The locals after a first iteration answered with [response_B]. *)
Definition after_B : locals :=
  after example_repr example_env (answered response_B) (initial_locals 100).

(** The events an iteration of the loop can produce: anything but the
    start-up events (creating the bot, the critical log, leaving). *)
Definition loop_event (e : event) : bool :=
  match e with
  | SysExit | BotInit _ | Log CRITICAL _ => false
  | _ => true
  end.

(** ** Further example values *)

Definition fields (name status : pyval) : list (string * pyval) :=
  [("homework_name", name); ("status", status)].

(** The request times out; the report, if any, is delivered. *)
Definition timed_out : cycle_input :=
  {| http := RequestException "Read timed out."; telegram := Delivered |}.

Definition unbound_report : string :=
  "Сбой в работе программы: " ++
  "local variable 'homeworks' referenced before assignment".

(** ** Further observations *)

(** The durations slept, in order. *)
Fixpoint sleeps (ev : list event) : list Z :=
  match ev with
  | [] => []
  | Sleep seconds :: rest => seconds :: sleeps rest
  | _ :: rest => sleeps rest
  end.

Definition is_log (e : event) : bool :=
  match e with Log _ _ => true | _ => false end.

(** [l] with every element dropped that equals the one before it, the one
    before the first being [prev]. *)
Fixpoint collapse (prev : string) (l : list string) : list string :=
  match l with
  | [] => []
  | m :: rest =>
      if m =? prev then collapse prev rest else m :: collapse m rest
  end.

(** The request goes to the endpoint with the module's header, the message
    to the configured chat. *)
Definition well_routed (env : environ) (e : event) : Prop :=
  match e with
  | RequestsGet url authorization _ =>
      url = ENDPOINT /\ authorization = HEADERS env
  | BotSendMessage chat_id _ => chat_id = TELEGRAM_CHAT_ID env
  | _ => True
  end.

(** The try body raises on this answer of the API. *)
Definition chain_fails (py_repr : pyval -> string) (env : environ)
  (o : http_outcome) : bool :=
  match snd (attempt py_repr env PNone o) with
  | Raise _ => true
  | Ok _ => false
  end.

(** The answer is a 200 whose body decodes to a mapping. *)
Definition yields_mapping (o : http_outcome) : bool :=
  match o with
  | Response code (Decoded (PDict _)) => (code =? HTTPStatus_OK)%Z
  | _ => false
  end.

(** The messages of the iterations, as the answers of the API give them. *)
Definition messages_of (py_repr : pyval -> string) (env : environ)
  (inputs : list cycle_input) : list string :=
  map (fun i => message_of py_repr env (http i)) inputs.

Section Properties.

Variable py_repr : pyval -> string.
Variable env : environ.

#[local] Abbreviation cycle := (cycle py_repr env).
#[local] Abbreviation poll_loop := (poll_loop py_repr env).
#[local] Abbreviation after := (after py_repr env).
#[local] Abbreviation events_of := (events_of py_repr env).
#[local] Abbreviation parse_status := (parse_status py_repr).
#[local] Abbreviation attempt := (attempt py_repr env).
#[local] Abbreviation get_api_answer := (get_api_answer env).
#[local] Abbreviation send_message := (send_message env).

Lemma sends_app (a b : list event) : sends (a ++ b) = (sends a ++ sends b)%list.
Proof.
  induction a as [|e a IH]; simpl; [reflexivity|].
  destruct e; simpl; rewrite ?IH; reflexivity.
Qed.

Lemma send_message_returns (m : string) (o : send_outcome) :
  snd (send_message m o) = Ok tt.
Proof. destruct o; reflexivity. Qed.

Lemma send_message_sends (m : string) (o : send_outcome) :
  sends (fst (send_message m o)) = [m].
Proof. destruct o; reflexivity. Qed.

(** The comparison with the last message and what follows it, which the
    try body and the handler both end with. *)
Lemma dedup_tail (m : string) (o : send_outcome) (s : locals) :
  s_bind (s_read previous_message)
    (fun previous =>
       if m =? previous then s_ret tt
       else s_bind (s_io (send_message m o))
                   (fun _ => set_previous_message m)) s
  = if m =? previous_message s then ([], s, Ok tt)
    else (fst (send_message m o),
          {| timestamp := timestamp s; previous_message := m |}, Ok tt).
Proof.
  unfold s_bind at 1, s_read. destruct (m =? previous_message s).
  - reflexivity.
  - unfold s_bind, s_io, set_previous_message.
    rewrite send_message_returns. now rewrite app_nil_r.
Qed.

Lemma except_body_closed_form (i : cycle_input) (e : exn) (s : locals) :
  except_body env i e s =
  let m := failure_report e in
  if m =? previous_message s then ([Log ERROR m], s, Ok tt)
  else (Log ERROR m :: fst (send_message m (telegram i)),
        {| timestamp := timestamp s; previous_message := m |}, Ok tt).
Proof.
  unfold except_body. fold (failure_report e).
  unfold s_bind at 1. unfold s_io at 1. cbn [io_emit fst snd].
  rewrite dedup_tail. cbn zeta.
  destruct (failure_report e =? previous_message s); reflexivity.
Qed.

Ltac tidy_events :=
  cbn [candidate report_log assigned previous_message timestamp
       s_io io_emit fst snd];
  rewrite ?app_nil_l, ?app_nil_r, <- ?app_assoc; cbn [app];
  try reflexivity.

Lemma cycle_closed_form (i : cycle_input) (s : locals) :
  cycle i s =
  match attempt (timestamp s) (http i) with
  | (ev, cur, r) =>
      let s1 := assigned cur s in
      let m := candidate r in
      if m =? previous_message s then
        ((ev ++ report_log r ++ [Sleep RETRY_PERIOD])%list, s1, Ok tt)
      else
        ((ev ++ report_log r ++ fst (send_message m (telegram i))
             ++ [Sleep RETRY_PERIOD])%list,
         {| timestamp := timestamp s1; previous_message := m |}, Ok tt)
  end.
Proof.
  destruct i as [h t]. unfold attempt.
  unfold cycle, try_finally, try_except, try_body.
  unfold s_bind at 1. unfold s_read at 1.
  unfold s_bind at 1. unfold s_io at 1.
  cbn [http telegram].
  destruct (get_api_answer (timestamp s) h) as [ev [response|e]]; cbn [fst snd].
  - unfold s_bind at 1. unfold s_result at 1.
    destruct (py_get response "current_date") as [cd|e].
    + unfold s_bind at 1. unfold set_timestamp at 1.
      unfold s_bind at 1. unfold s_result at 1.
      destruct (check_response response) as [hw|e].
      * unfold s_bind at 1. unfold s_io at 1.
        destruct (parse_status hw) as [ev' [m|e]]; cbn [fst snd].
        -- rewrite dedup_tail. cbn [candidate previous_message timestamp].
           destruct (m =? previous_message s); tidy_events.
        -- rewrite except_body_closed_form.
        cbn zeta; cbn [candidate telegram previous_message timestamp assigned].
           destruct (failure_report e =? previous_message s); tidy_events.
      * rewrite except_body_closed_form.
        cbn zeta; cbn [candidate telegram previous_message timestamp assigned].
        destruct (failure_report e =? previous_message s); tidy_events.
    + rewrite except_body_closed_form.
        cbn zeta; cbn [candidate telegram previous_message timestamp assigned].
      destruct (failure_report e =? previous_message s); tidy_events.
  - rewrite except_body_closed_form.
        cbn zeta; cbn [candidate telegram previous_message timestamp assigned].
    destruct (failure_report e =? previous_message s); tidy_events.
Qed.

(** *** What an iteration does to the locals and to the outside *)

Lemma get_api_answer_events (ts : pyval) (o : http_outcome) :
  exists rest, fst (get_api_answer ts o)
               = RequestsGet ENDPOINT (HEADERS env) ts :: rest
               /\ sends rest = [] /\ requests rest = [].
Proof.
  destruct o as [err | code [v | err]]; unfold get_api_answer.
  - eexists; split; [reflexivity | split; reflexivity].
  - cbn [io_bind io_emit]. destruct (negb (code =? HTTPStatus_OK)%Z);
      eexists; (split; [reflexivity | split; reflexivity]).
  - cbn [io_bind io_emit]. destruct (negb (code =? HTTPStatus_OK)%Z);
      eexists; (split; [reflexivity | split; reflexivity]).
Qed.

Lemma parse_status_events (hw : pyval) :
  match parse_status hw with
  | (ev, Ok m) => ev = [Log DEBUG m]
  | (ev, Raise _) => ev = []
  end.
Proof.
  unfold parse_status, io_lift.
  match goal with |- context [io_bind (_, ?r) _] => destruct r end;
    reflexivity.
Qed.

Lemma attempt_events (ts : pyval) (o : http_outcome) :
  exists rest, fst (fst (attempt ts o))
               = RequestsGet ENDPOINT (HEADERS env) ts :: rest
               /\ sends rest = [] /\ requests rest = [].
Proof.
  unfold attempt.
  destruct (get_api_answer_events ts o) as (rest & Hev & Hs & Hr).
  destruct (get_api_answer ts o) as [ev [response | e]]; cbn [fst] in Hev; subst ev.
  - destruct (py_get response "current_date") as [cd | e];
      [| exists rest; auto].
    destruct (check_response response) as [hw | e]; [| exists rest; auto].
    pose proof (parse_status_events hw) as Hp.
    destruct (parse_status hw) as [ev' [m | e]]; subst ev'; cbn [fst].
    + exists (rest ++ [Log DEBUG m])%list. split; [reflexivity|].
      rewrite sends_app, Hs. split; [reflexivity|].
      clear -Hr. induction rest as [|x rest IH]; [reflexivity|].
      destruct x; simpl in *; try discriminate; auto.
    + rewrite app_nil_r. exists rest; auto.
  - exists rest; auto.
Qed.
(** An iteration always completes, and it either sends nothing and keeps
    the memory, or sends its message once, which is not the one in memory,
    and remembers it. *)
Lemma cycle_dedup (i : cycle_input) (s : locals) :
  let m := candidate (snd (attempt (timestamp s) (http i))) in
  snd (cycle i s) = Ok tt /\
  ((m = previous_message s /\ sends (events_of i s) = []
    /\ previous_message (after i s) = previous_message s) \/
   (m <> previous_message s /\ sends (events_of i s) = [m]
    /\ previous_message (after i s) = m)).
Proof.
  unfold after, events_of. rewrite cycle_closed_form.
  destruct (attempt_events (timestamp s) (http i)) as (rest & Hev & Hs & _).
  destruct (attempt (timestamp s) (http i)) as [[ev cur] r].
  cbn [fst snd] in *. subst ev. cbn zeta.
  assert (Hlog : sends (report_log r) = []) by (destruct r; reflexivity).
  destruct (candidate r =? previous_message s) eqn:E; cbn [fst snd].
  - apply String.eqb_eq in E. split; [reflexivity|]. left.
    split; [exact E|]. split.
    + change (RequestsGet ENDPOINT (HEADERS env) (timestamp s) :: rest)
        with ([RequestsGet ENDPOINT (HEADERS env) (timestamp s)] ++ rest)%list.
      rewrite !sends_app, Hs, Hlog. reflexivity.
    + destruct cur; reflexivity.
  - apply String.eqb_neq in E. split; [reflexivity|]. right.
    split; [exact E|]. split; [|reflexivity].
    change (RequestsGet ENDPOINT (HEADERS env) (timestamp s) :: rest)
      with ([RequestsGet ENDPOINT (HEADERS env) (timestamp s)] ++ rest)%list.
    rewrite !sends_app, Hs, Hlog, send_message_sends. reflexivity.
Qed.

Lemma poll_loop_cons (i : cycle_input) (rest : list cycle_input) (s : locals) :
  poll_loop (i :: rest) s =
  ((events_of i s ++ fst (poll_loop rest (after i s)))%list,
   snd (poll_loop rest (after i s))).
Proof.
  cbn [poll_loop]. unfold events_of, after.
  destruct (cycle_dedup i s) as [Hok _].
  destruct (cycle i s) as [[ev s1] r]. cbn [fst snd] in *. subst r.
  destruct (poll_loop rest s1); reflexivity.
Qed.

Lemma no_repeat_cons (a b : string) (l : list string) :
  a <> b -> no_repeat (b :: l) -> no_repeat (a :: b :: l).
Proof. intros Hab Hl. split; assumption. Qed.

Lemma no_repeat_tail (a : string) (l : list string) :
  no_repeat (a :: l) -> no_repeat l.
Proof. destruct l as [|b l]; [intros _; exact I | intros [_ H]; exact H]. Qed.

(** The memory, followed by what the loop sends from there on, never shows
    the same text twice in a row. *)
Lemma poll_loop_no_repeat (inputs : list cycle_input) (s : locals) :
  no_repeat (previous_message s :: sends (fst (poll_loop inputs s))).
Proof.
  revert s. induction inputs as [|i rest IH]; intros s.
  - exact I.
  - rewrite poll_loop_cons. cbn [fst]. rewrite sends_app.
    destruct (cycle_dedup i s) as [_ [(_ & Hs & Hp) | (Hne & Hs & Hp)]];
      rewrite Hs; cbn [app].
    + rewrite <- Hp. apply IH.
    + apply no_repeat_cons; [congruence|].
      specialize (IH (after i s)). rewrite Hp in IH. exact IH.
Qed.

(** C1: whatever the API and the Telegram client answer, and for as many
    iterations as one likes, the Notifier is never invoked twice in a row
    with the same text, be it a status message or a failure report; and an
    iteration either leaves Last-Sent Memory alone and sends nothing, or its
    candidate message differs from the memory, is sent once, and becomes
    the memory. *)
Theorem notifier_never_repeats
  (now : Z) (inputs : list cycle_input) (s : locals) (i : cycle_input) :
  no_repeat (sends (main py_repr env now inputs)) /\
  no_repeat (sends (fst (poll_loop inputs s))) /\
  let m := candidate (snd (attempt (timestamp s) (http i))) in
  ((m = previous_message s /\ sends (events_of i s) = []
    /\ previous_message (after i s) = previous_message s) \/
   (m <> previous_message s /\ sends (events_of i s) = [m]
    /\ previous_message (after i s) = m)).
Proof.
  split; [| split].
  - unfold main. destruct (negb (check_tokens env)); [exact I|].
    cbn [sends].
    exact (no_repeat_tail _ _ (poll_loop_no_repeat inputs (initial_locals now))).
  - exact (no_repeat_tail _ _ (poll_loop_no_repeat inputs s)).
  - exact (proj2 (cycle_dedup i s)).
Qed.

(** *** The cursor *)

(** The value the try body assigns to the cursor, if it gets that far. *)
Lemma attempt_cursor (ts : pyval) (o : http_outcome) :
  snd (fst (attempt ts o)) =
  match o with
  | Response code (Decoded (PDict d)) =>
      if (code =? HTTPStatus_OK)%Z
      then Some (match dict_get d "current_date" with
                 | Some v => v
                 | None => PNone
                 end)
      else None
  | _ => None
  end.
Proof.
  unfold attempt, get_api_answer.
  destruct o as [err | code js]; cbn [io_bind io_emit io_raise app].
  - reflexivity.
  - destruct (code =? HTTPStatus_OK)%Z; cbn [negb].
    + destruct js as [v | err]; cbn [io_ret io_raise app]; [| reflexivity].
      destruct v; cbn [py_get]; try reflexivity.
      destruct (check_response (PDict d)) as [hw | e]; [| reflexivity].
      destruct (parse_status hw); reflexivity.
    + destruct js as [[] | err]; reflexivity.
Qed.

Lemma cycle_timestamp (i : cycle_input) (s : locals) :
  timestamp (after i s) =
  match snd (fst (attempt (timestamp s) (http i))) with
  | Some c => from_date_params c
  | None => timestamp s
  end.
Proof.
  unfold after. rewrite cycle_closed_form.
  destruct (attempt (timestamp s) (http i)) as [[ev cur] r]. cbn zeta.
  destruct (candidate r =? previous_message s); cbn [fst snd];
    destruct cur; reflexivity.
Qed.

(** An iteration makes one request, with the cursor it starts from. *)
Lemma cycle_requests (i : cycle_input) (s : locals) :
  requests (events_of i s) = [timestamp s].
Proof.
  unfold events_of. rewrite cycle_closed_form.
  destruct (attempt_events (timestamp s) (http i)) as (rest & Hev & _ & Hr).
  destruct (attempt (timestamp s) (http i)) as [[ev cur] r].
  cbn [fst snd] in *. subst ev. cbn zeta.
  assert (Happ : forall a b, requests (a ++ b) = (requests a ++ requests b)%list).
  { induction a as [|x a IH]; intros b; [reflexivity|].
    destruct x; cbn [app requests]; rewrite ?IH; reflexivity. }
  assert (Hlog : requests (report_log r) = []) by (destruct r; reflexivity).
  assert (Hsend : forall m o, requests (fst (send_message m o)) = [])
    by (intros m []; reflexivity).
  change (RequestsGet ENDPOINT (HEADERS env) (timestamp s) :: rest)
    with ([RequestsGet ENDPOINT (HEADERS env) (timestamp s)] ++ rest)%list.
  destruct (candidate r =? previous_message s); cbn [fst snd];
    rewrite !Happ, Hr, Hlog, ?Hsend; reflexivity.
Qed.

(** *** The message *)

(** [parse_status] answers the fixed sentence exactly for a falsy argument;
    for a truthy one it raises or fills the template. *)
Lemma parse_status_cases (hw : pyval) :
  match snd (parse_status hw) with
  | Ok m =>
      (truthy hw = false /\ m = NOT_CHANGED) \/
      (truthy hw = true /\
       exists name status verdict,
         py_getitem hw "homework_name" = Ok name /\
         py_getitem hw "status" = Ok status /\
         verdicts_getitem py_repr status = Ok verdict /\
         m = status_changed py_repr name verdict)
  | Raise _ => truthy hw = true
  end.
Proof.
  unfold parse_status, io_lift.
  destruct (truthy hw).
  - destruct (py_in "homework_name" hw) as [[] | e]; cbn [bind negb io_bind snd];
      [| reflexivity | reflexivity].
    destruct (py_in "status" hw) as [[] | e]; cbn [bind negb io_bind snd];
      [| reflexivity | reflexivity].
    destruct (py_getitem hw "status") as [status | e] eqn:Hst;
      cbn [bind negb io_bind snd]; [| reflexivity].
    destruct (truthy status); cbn [bind negb io_bind snd]; [| reflexivity].
    destruct (in_verdicts status) as [[] | e]; cbn [bind negb io_bind snd];
      [| reflexivity | reflexivity].
    destruct (py_getitem hw "homework_name") as [name | e] eqn:Hn;
      cbn [bind negb io_bind snd]; [| reflexivity].
    destruct (verdicts_getitem py_repr status) as [verdict | e] eqn:Hv;
      cbn [bind negb io_bind snd]; [| reflexivity].
    right. split; [reflexivity|]. exists name, status, verdict. auto.
  - cbn [io_bind snd]. left. auto.
Qed.

Lemma status_changed_not_fixed (name : pyval) (verdict : string) :
  status_changed py_repr name verdict <> NOT_CHANGED.
Proof. unfold status_changed, NOT_CHANGED. cbn [append]. discriminate. Qed.

Lemma status_changed_nonempty (name : pyval) (verdict : string) :
  status_changed py_repr name verdict <> "".
Proof. unfold status_changed. cbn [append]. discriminate. Qed.

Lemma failure_report_nonempty (e : exn) : failure_report e <> "".
Proof. unfold failure_report. cbn [append]. discriminate. Qed.

Lemma parse_status_nonempty (hw : pyval) (m : string) :
  snd (parse_status hw) = Ok m -> m <> "".
Proof.
  intros H. pose proof (parse_status_cases hw) as Hc. rewrite H in Hc.
  destruct Hc as [[_ ->] | [_ (n & st & v & _ & _ & _ & ->)]].
  - discriminate.
  - apply status_changed_nonempty.
Qed.

(** The result of the try body does not depend on the cursor, which only
    goes into the request. *)
Lemma attempt_result (ts : pyval) (o : http_outcome) :
  candidate (snd (attempt ts o)) = message_of py_repr env o.
Proof.
  unfold message_of, attempt, get_api_answer.
  destruct o as [err | code js]; cbn [io_bind io_emit io_raise app snd].
  - reflexivity.
  - destruct (negb (code =? HTTPStatus_OK)%Z); [reflexivity|].
    destruct js as [v | err]; cbn [io_ret io_raise app snd]; [| reflexivity].
    destruct (py_get v "current_date"); [| reflexivity].
    destruct (check_response v) as [hw | e]; [| reflexivity].
    destruct (parse_status hw); reflexivity.
Qed.

Lemma message_of_nonempty (o : http_outcome) : message_of py_repr env o <> "".
Proof.
  rewrite <- (attempt_result PNone o). unfold attempt.
  destruct (get_api_answer PNone o) as [ev [response | e]];
    [| apply failure_report_nonempty].
  destruct (py_get response "current_date");
    [| apply failure_report_nonempty].
  destruct (check_response response) as [hw | e];
    [| apply failure_report_nonempty].
  destruct (parse_status hw) as [ev' [m | e]] eqn:Hp;
    [| apply failure_report_nonempty].
  cbn [snd candidate]. apply (parse_status_nonempty hw).
  rewrite Hp. reflexivity.
Qed.

(** *** The claims on the loop *)

(** C2, as the code has it: an iteration whose fetch fails (the request
    raises, the status is not 200, the body does not decode, or it decodes
    to something that is not a mapping) leaves the cursor as it was.  Once
    the fetch has returned a mapping, the cursor becomes that response's
    [current_date] ([None] when the key is absent) before validation and
    translation run, hence also when one of them then fails.  The request of
    the next iteration carries the cursor the iteration left. *)
Theorem cursor_carry_through (i i' : cycle_input) (s : locals) :
  timestamp (after i s) =
    match http i with
    | Response code (Decoded (PDict d)) =>
        if (code =? HTTPStatus_OK)%Z
        then from_date_params
               (match dict_get d "current_date" with
                | Some v => v
                | None => PNone
                end)
        else timestamp s
    | _ => timestamp s
    end
  /\ requests (events_of i' (after i s)) = [timestamp (after i s)].
Proof.
  split; [| apply cycle_requests].
  rewrite cycle_timestamp, attempt_cursor.
  destruct (http i) as [err | code [[] | err]]; try reflexivity.
  destruct (code =? HTTPStatus_OK)%Z; reflexivity.
Qed.

(** C3, as the code has it: when the API answers the same in two
    consecutive iterations the second one never invokes the Notifier, and
    the first one does exactly when its message is not the one in Last-Sent
    Memory; so the two iterations make one invocation from a memory that
    differs from the message, as at the start of the loop, and none from a
    memory that holds it. *)
Theorem same_answer_twice
  (h : http_outcome) (t1 t2 : send_outcome) (s : locals) (now : Z) :
  let i1 := {| http := h; telegram := t1 |} in
  let i2 := {| http := h; telegram := t2 |} in
  let m := message_of py_repr env h in
  sends (events_of i2 (after i1 s)) = [] /\
  sends (fst (poll_loop [i1; i2] s))
    = (if m =? previous_message s then [] else [m]) /\
  sends (fst (poll_loop [i1; i2] (initial_locals now))) = [m].
Proof.
  intros i1 i2 m.
  assert (Hgen : forall s0,
    sends (events_of i2 (after i1 s0)) = [] /\
    sends (fst (poll_loop [i1; i2] s0))
      = (if m =? previous_message s0 then [] else [m])).
  { intros s0.
    destruct (cycle_dedup i1 s0) as [_ H1].
    destruct (cycle_dedup i2 (after i1 s0)) as [_ H2].
    rewrite attempt_result in H1, H2. cbn [http i1 i2] in H1, H2. fold m in H1, H2.
    assert (Hsecond : sends (events_of i2 (after i1 s0)) = []).
    { destruct H2 as [(_ & H2 & _) | (Hne & _ & _)]; [exact H2|].
      exfalso. apply Hne. destruct H1 as [(-> & _ & ->) | (_ & _ & ->)]; reflexivity. }
    split; [exact Hsecond|].
    rewrite !poll_loop_cons. cbn [fst poll_loop].
    rewrite !sends_app, Hsecond. cbn [sends app]. rewrite app_nil_r.
    destruct H1 as [(He & -> & _) | (Hne & -> & _)].
    - rewrite He, String.eqb_refl. reflexivity.
    - apply String.eqb_neq in Hne. rewrite Hne. reflexivity. }
  split; [apply Hgen | split; [apply Hgen|]].
  rewrite (proj2 (Hgen (initial_locals now))). cbn [initial_locals previous_message].
  destruct (m =? "") eqn:E; [| reflexivity].
  apply String.eqb_eq in E. exfalso. exact (message_of_nonempty h E).
Qed.

(** C6, as the code has it: a send that fails with [TelegramError] is
    logged and nothing more; the locals end up as after a delivery.  So when
    the message differs from Last-Sent Memory the send is attempted, fails,
    the memory becomes the undelivered text all the same, and the next
    iteration that computes this text sends nothing. *)
Theorem failed_send_is_remembered
  (h : http_outcome) (error : string) (t' : send_outcome) (s : locals) :
  let i := {| http := h; telegram := TelegramError error |} in
  let m := message_of py_repr env h in
  m <> previous_message s ->
  sends (events_of i s) = [m] /\
  In (Log ERROR ("Ошибка отправки сообщения: " ++ error)) (events_of i s) /\
  previous_message (after i s) = m /\
  after i s = after {| http := h; telegram := Delivered |} s /\
  sends (events_of {| http := h; telegram := t' |} (after i s)) = [].
Proof.
  intros i m Hne.
  destruct (cycle_dedup i s) as [_ H1]. rewrite attempt_result in H1.
  cbn [http i] in H1. fold m in H1.
  destruct H1 as [(He & _) | (_ & Hs & Hp)]; [contradiction|].
  split; [exact Hs|]. split; [| split; [exact Hp | split]].
  - unfold events_of. rewrite cycle_closed_form.
    pose proof (attempt_result (timestamp s) h) as Hm. fold m in Hm.
    cbn [http i telegram].
    destruct (attempt (timestamp s) h) as [[ev cur] r]. cbn [snd] in Hm.
    cbn zeta. rewrite Hm. apply String.eqb_neq in Hne. rewrite Hne.
    cbn [fst]. apply in_or_app. right. apply in_or_app. right.
    apply in_or_app. left. cbn. auto.
  - unfold after. rewrite !cycle_closed_form. cbn [http i telegram].
    destruct (attempt (timestamp s) h) as [[ev cur] r]. cbn zeta.
    destruct (candidate r =? previous_message s); reflexivity.
  - destruct (cycle_dedup {| http := h; telegram := t' |} (after i s))
      as [_ [(_ & H2 & _) | (Hne2 & _)]]; [exact H2|].
    rewrite attempt_result in Hne2. cbn [http] in Hne2. fold m in Hne2.
    congruence.
Qed.

(** C10: when a 200 answer decodes to a mapping without [current_date],
    [response.get] gives [None] and raises nothing: the cursor becomes
    [{'from_date': None}], the next request carries it, and the iteration
    goes on to validation and translation as with any other mapping.  A
    [current_date] that is present is adopted as it is, whatever it is. *)
Theorem missing_current_date_gives_None
  (d : list (string * pyval)) (t : send_outcome) (i' : cycle_input)
  (s : locals) :
  let i := {| http := Response HTTPStatus_OK (Decoded (PDict d));
              telegram := t |} in
  dict_get d "current_date" = None ->
  timestamp (after i s) = from_date_params PNone /\
  requests (events_of i' (after i s)) = [from_date_params PNone] /\
  snd (attempt (timestamp s) (http i))
    = match check_response (PDict d) with
      | Ok homework => snd (parse_status homework)
      | Raise e => Raise e
      end /\
  forall (v : pyval) (d' : list (string * pyval)),
    timestamp
      (after {| http := Response HTTPStatus_OK
                          (Decoded (PDict (("current_date", v) :: d')));
                telegram := t |} s)
    = from_date_params v.
Proof.
  intros i Hnone.
  assert (Hts : timestamp (after i s) = from_date_params PNone).
  { rewrite cycle_timestamp, attempt_cursor. cbn [http i].
    rewrite Hnone. reflexivity. }
  split; [exact Hts|]. split; [| split].
  - rewrite cycle_requests, Hts. reflexivity.
  - cbn [http i]. unfold attempt, get_api_answer.
    cbn [io_bind io_emit io_ret app py_get negb Z.eqb HTTPStatus_OK Pos.eqb].
    destruct (check_response (PDict d)) as [hw | e]; [| reflexivity].
    destruct (parse_status hw); reflexivity.
  - intros v d'. rewrite cycle_timestamp, attempt_cursor. reflexivity.
Qed.

(** *** The claims on the functions *)

Lemma dict_has_of_get (d : list (string * pyval)) (k : string) (v : pyval) :
  dict_get d k = Some v -> dict_has d k = true.
Proof. unfold dict_has. intros ->. reflexivity. Qed.

Lemma dict_get_truthy (d : list (string * pyval)) (k : string) (v : pyval) :
  dict_get d k = Some v -> truthy (PDict d) = true.
Proof. destruct d; [discriminate | reflexivity]. Qed.

Lemma verdict_of_unknown (s : string) :
  s <> "reviewing" -> s <> "approved" -> s <> "rejected" ->
  verdict_of HOMEWORK_VERDICTS s = None.
Proof.
  intros H1 H2 H3. unfold HOMEWORK_VERDICTS. cbn [verdict_of].
  destruct ("approved" =? s) eqn:E1;
    [apply String.eqb_eq in E1; congruence|].
  destruct ("reviewing" =? s) eqn:E2;
    [apply String.eqb_eq in E2; congruence|].
  destruct ("rejected" =? s) eqn:E3;
    [apply String.eqb_eq in E3; congruence|].
  reflexivity.
Qed.

(** C4, as the code has it: the verdict table has the three entries below,
    in the language of the source; for a submission with a name and a status
    of the table [parse_status] logs and returns the template of the source
    filled with the name and the verdict of that status; with any other
    status value it raises. *)
Theorem parse_status_verdicts :
  (verdict_of HOMEWORK_VERDICTS "reviewing"
     = Some "Работа взята на проверку ревьюером." /\
   verdict_of HOMEWORK_VERDICTS "approved"
     = Some "Работа проверена: ревьюеру всё понравилось. Ура!" /\
   verdict_of HOMEWORK_VERDICTS "rejected"
     = Some "Работа проверена: у ревьюера есть замечания.") /\
  (forall (d : list (string * pyval)) (name : pyval) (status verdict : string),
     dict_get d "homework_name" = Some name ->
     dict_get d "status" = Some (PStr status) ->
     verdict_of HOMEWORK_VERDICTS status = Some verdict ->
     let m := "Изменился статус проверки работы " ++
              dq ++ py_format py_repr name ++ dq ++ ". " ++ verdict in
     parse_status (PDict d) = ([Log DEBUG m], Ok m)) /\
  (forall (d : list (string * pyval)) (v : pyval),
     dict_get d "status" = Some v ->
     v <> PStr "reviewing" -> v <> PStr "approved" -> v <> PStr "rejected" ->
     exists e, parse_status (PDict d) = ([], Raise e)).
Proof.
  split; [repeat split | split].
  - intros d name status verdict Hn Hs Hv m.
    unfold parse_status. rewrite (dict_get_truthy _ _ _ Hn).
    cbn [py_in py_getitem]. rewrite (dict_has_of_get _ _ _ Hn), Hs, Hn.
    rewrite (dict_has_of_get _ _ _ Hs). cbn [bind negb].
    assert (Ht : truthy (PStr status) = true).
    { destruct status; [discriminate Hv | reflexivity]. }
    rewrite Ht. cbn [bind negb in_verdicts verdicts_getitem]. rewrite Hv.
    reflexivity.
  - intros d v Hs H1 H2 H3.
    unfold parse_status. rewrite (dict_get_truthy _ _ _ Hs).
    cbn [py_in py_getitem]. rewrite (dict_has_of_get _ _ _ Hs), Hs.
    destruct (dict_has d "homework_name"); cbn [bind negb];
      [| eexists; reflexivity].
    destruct (truthy v) eqn:Ht; cbn [bind negb]; [| eexists; reflexivity].
    assert (Hk : in_verdicts v = Ok false \/ exists e, in_verdicts v = Raise e).
    { destruct v; cbn [in_verdicts]; try (left; reflexivity);
        try (right; eexists; reflexivity).
      rewrite verdict_of_unknown; [left; reflexivity | | |]; congruence. }
    destruct Hk as [-> | [e ->]]; cbn [bind negb]; eexists; reflexivity.
Qed.

(** C5, at the input where the code departs from the claim: when
    [requests.get] raises, [get_api_answer] logs and goes on to read
    [homeworks], which was never bound; the caller gets an
    [UnboundLocalError], and the report sent to the user is the text of that
    error, in which the endpoint does not occur, while the report of a
    status other than 200 has the endpoint in it. *)
Theorem transport_failure_report
  (error : string) (ts : pyval) (t : send_outcome) (now code : Z)
  (json : json_outcome) :
  let report :=
    "Сбой в работе программы: " ++
    "local variable 'homeworks' referenced before assignment" in
  get_api_answer ts (RequestException error)
    = ([RequestsGet ENDPOINT (HEADERS env) ts;
        Log ERROR ("Ошибка при запросе к эндпоинту: " ++ error)],
       Raise (UnboundLocalError "homeworks")) /\
  sends (fst (poll_loop [{| http := RequestException error; telegram := t |}]
                        (initial_locals now))) = [report] /\
  contains ENDPOINT report = false /\
  ((code =? HTTPStatus_OK)%Z = true \/
   contains ENDPOINT (message_of py_repr env (Response code json)) = true).
Proof.
  intros report. split; [reflexivity|]. split; [| split].
  - rewrite poll_loop_cons. cbn [fst poll_loop]. rewrite app_nil_r.
    destruct (cycle_dedup {| http := RequestException error; telegram := t |}
                          (initial_locals now)) as [_ H].
    rewrite attempt_result in H. cbn [http] in H.
    destruct H as [(He & _) | (_ & -> & _)]; [| reflexivity].
    exfalso. cbn in He. discriminate He.
  - vm_compute. reflexivity.
  - destruct (code =? HTTPStatus_OK)%Z eqn:Hcode; [left; reflexivity | right].
    unfold message_of, attempt, get_api_answer.
    cbn [io_bind io_emit io_raise app]. rewrite Hcode. cbn [negb snd candidate].
    unfold failure_report, str_exn, contains, ENDPOINT. cbn. reflexivity.
Qed.

(** C7, as the code has it: the "no submission" result of [check_response]
    is the ordinary empty mapping, and [parse_status] asks only whether its
    argument is truthy.  For a well-shaped response with a non-empty
    [homeworks], validation returns the first element; if that element is
    truthy, translation raises or returns a filled template, never the
    sentence "status did not change", and a non-empty mapping without a name
    raises the missing-key error; if it is falsy (an empty mapping, [None],
    zero, an empty string or list, [False]), translation returns "status did
    not change", as it does for an empty collection. *)
Theorem first_submission_pipeline
  (d : list (string * pyval)) (first : pyval) (rest : list pyval) :
  dict_get d "homeworks" = Some (PList (first :: rest)) ->
  check_response (PDict d) = Ok first /\
  (truthy first = true ->
   match snd (parse_status first) with
   | Ok m => m <> NOT_CHANGED /\
             exists name verdict, m = status_changed py_repr name verdict
   | Raise _ => True
   end) /\
  (truthy first = false ->
   parse_status first = ([Log DEBUG NOT_CHANGED], Ok NOT_CHANGED)) /\
  (forall hw : list (string * pyval),
     first = PDict hw -> hw <> [] -> dict_get hw "homework_name" = None ->
     parse_status first
     = ([], Raise (KeyError (repr_literal
                      ("Отсутствует ключ " ++ dq ++ "homework_name" ++ dq))))).
Proof.
  intros Hd. split; [| split; [| split]].
  - unfold check_response. cbn [py_in py_getitem].
    rewrite (dict_has_of_get _ _ _ Hd), Hd. reflexivity.
  - intros Ht. pose proof (parse_status_cases first) as Hc.
    destruct (snd (parse_status first)) as [m | e]; [| exact I].
    destruct Hc as [[Hf _] | [_ (n & st & v & _ & _ & _ & ->)]];
      [congruence|].
    split; [apply status_changed_not_fixed | eauto].
  - intros Hf. unfold parse_status. rewrite Hf. reflexivity.
  - intros hw -> Hne Hn. unfold parse_status.
    destruct hw as [|b hw]; [congruence|]. cbn [truthy py_in].
    unfold dict_has. rewrite Hn. reflexivity.
Qed.

(** C8: [check_response] raises a [TypeError] that carries the type of the
    document when the document is not a mapping, a [KeyError] when the
    mapping has no [homeworks], and a [TypeError] that carries the type of
    [homeworks] when that is not a list; otherwise it returns the first
    element of [homeworks], or the empty mapping when the list is empty. *)
Theorem check_response_contract :
  (forall response : pyval,
     (forall d, response <> PDict d) ->
     check_response response
     = Raise (TypeError ("Некорректный тип данных: " ++
                         "<class '" ++ type_name response ++ "'>"))) /\
  (forall d : list (string * pyval),
     dict_get d "homeworks" = None ->
     check_response (PDict d)
     = Raise (KeyError ("'Отсутствует ключ " ++ dq ++ "homeworks" ++ dq ++ "'"))) /\
  (forall (d : list (string * pyval)) (v : pyval),
     dict_get d "homeworks" = Some v ->
     (forall l, v <> PList l) ->
     check_response (PDict d)
     = Raise (TypeError ("Некорректный тип данных " ++
                         "<class '" ++ type_name v ++ "'>"))) /\
  (forall (d : list (string * pyval)) (first : pyval) (rest : list pyval),
     dict_get d "homeworks" = Some (PList (first :: rest)) ->
     check_response (PDict d) = Ok first) /\
  (forall d : list (string * pyval),
     dict_get d "homeworks" = Some (PList []) ->
     check_response (PDict d) = Ok (PDict [])).
Proof.
  split; [| split; [| split; [| split]]].
  - intros response Hnd. destruct response; try reflexivity.
    exfalso. exact (Hnd d eq_refl).
  - intros d Hd. unfold check_response. cbn [py_in]. unfold dict_has.
    rewrite Hd. reflexivity.
  - intros d v Hd Hnl. unfold check_response. cbn [py_in py_getitem].
    rewrite (dict_has_of_get _ _ _ Hd), Hd. cbn [bind negb].
    destruct v; try reflexivity. exfalso. exact (Hnl l eq_refl).
  - intros d first rest Hd. unfold check_response. cbn [py_in py_getitem].
    rewrite (dict_has_of_get _ _ _ Hd), Hd. reflexivity.
  - intros d Hd. unfold check_response. cbn [py_in py_getitem].
    rewrite (dict_has_of_get _ _ _ Hd), Hd. reflexivity.
Qed.

(** *** Start-up *)

Lemma attempt_stays_in_loop (ts : pyval) (o : http_outcome) :
  forallb loop_event (fst (fst (attempt ts o))) = true.
Proof.
  unfold attempt, get_api_answer.
  destruct o as [err | code js]; cbn [io_bind io_emit io_raise app].
  - reflexivity.
  - destruct (negb (code =? HTTPStatus_OK)%Z); [reflexivity|].
    destruct js as [v | err]; cbn [io_ret io_raise app]; [| reflexivity].
    destruct (py_get v "current_date"); [| reflexivity].
    destruct (check_response v) as [hw | e]; [| reflexivity].
    pose proof (parse_status_events hw) as Hp.
    destruct (parse_status hw) as [ev' [m | e]]; subst ev'; reflexivity.
Qed.

Lemma cycle_stays_in_loop (i : cycle_input) (s : locals) :
  forallb loop_event (events_of i s) = true.
Proof.
  unfold events_of. rewrite cycle_closed_form.
  pose proof (attempt_stays_in_loop (timestamp s) (http i)) as Hev.
  destruct (attempt (timestamp s) (http i)) as [[ev cur] r].
  cbn [fst] in Hev. cbn zeta.
  assert (Hsend : forall m o, forallb loop_event (fst (send_message m o)) = true)
    by (intros m []; reflexivity).
  assert (Hlog : forallb loop_event (report_log r) = true)
    by (destruct r; reflexivity).
  destruct (candidate r =? previous_message s); cbn [fst];
    rewrite !forallb_app, Hev, Hlog, ?Hsend; reflexivity.
Qed.

Lemma poll_loop_stays_in_loop (inputs : list cycle_input) (s : locals) :
  forallb loop_event (fst (poll_loop inputs s)) = true.
Proof.
  revert s. induction inputs as [|i rest IH]; intros s; [reflexivity|].
  rewrite poll_loop_cons. cbn [fst].
  rewrite forallb_app, cycle_stays_in_loop, IH. reflexivity.
Qed.

(** C9: if one of the three credentials is absent, [check_tokens] is false
    and [main] logs at the critical level and exits: no bot is created, no
    request is made, nothing is sent, whatever the outside world would have
    answered.  The test is made before the loop and only there: no
    iteration logs at the critical level or exits, whatever the
    credentials. *)
Theorem missing_credential_stops
  (now : Z) (inputs : list cycle_input) (s : locals) :
  PRACTICUM_TOKEN env = None \/ TELEGRAM_TOKEN env = None
    \/ TELEGRAM_CHAT_ID env = None ->
  check_tokens env = false /\
  main py_repr env now inputs
  = [Log CRITICAL ("Отсутствуют обязательные переменные окружения! " ++
                   "Работа программы принудительно завершена");
     SysExit] /\
  requests (main py_repr env now inputs) = [] /\
  sends (main py_repr env now inputs) = [] /\
  forallb loop_event (fst (poll_loop inputs s)) = true.
Proof.
  intros Habsent.
  assert (Hc : check_tokens env = false).
  { unfold check_tokens. cbn [forallb].
    destruct Habsent as [-> | [-> | ->]]; cbn [getenv_truthy];
      rewrite ?andb_false_r; reflexivity. }
  unfold main. rewrite Hc. cbn [negb].
  repeat split; try reflexivity. apply poll_loop_stays_in_loop.
Qed.

(** ** Further properties of the module *)

(** *** The shape of an iteration *)

Lemma logs_are_silent (l : list event) :
  forallb is_log l = true ->
  sends l = [] /\ requests l = [] /\ sleeps l = [] /\
  Forall (well_routed env) l.
Proof.
  induction l as [|e l IH]; [intros _; repeat split; constructor|].
  cbn [forallb]. intros H. apply andb_prop in H. destruct H as [He Hl].
  destruct (IH Hl) as (H1 & H2 & H3 & H4).
  destruct e; try discriminate He. cbn [sends requests sleeps].
  repeat split; try assumption. constructor; [exact I | exact H4].
Qed.

Lemma attempt_events_logs (ts : pyval) (o : http_outcome) :
  exists logs,
    fst (fst (attempt ts o)) = RequestsGet ENDPOINT (HEADERS env) ts :: logs
    /\ forallb is_log logs = true.
Proof.
  unfold attempt, get_api_answer.
  destruct o as [err | code js]; cbn [io_bind io_emit io_raise app].
  - eexists; split; reflexivity.
  - destruct (negb (code =? HTTPStatus_OK)%Z); [eexists; split; reflexivity|].
    destruct js as [v | err]; cbn [io_ret io_raise app];
      [| eexists; split; reflexivity].
    destruct (py_get v "current_date"); [| eexists; split; reflexivity].
    destruct (check_response v) as [hw | e]; [| eexists; split; reflexivity].
    pose proof (parse_status_events hw) as Hp.
    destruct (parse_status hw) as [ev' [m | e]]; subst ev';
      eexists; split; reflexivity.
Qed.

(** An iteration is: the request, logs, the notification unless the message
    is the one in memory, and the sleep. *)
Lemma cycle_events_shape (i : cycle_input) (s : locals) :
  exists logs,
    forallb is_log logs = true /\
    events_of i s =
      (RequestsGet ENDPOINT (HEADERS env) (timestamp s) :: logs ++
       (if message_of py_repr env (http i) =? previous_message s then []
        else fst (send_message (message_of py_repr env (http i)) (telegram i)))
       ++ [Sleep RETRY_PERIOD])%list.
Proof.
  unfold events_of. rewrite cycle_closed_form.
  destruct (attempt_events_logs (timestamp s) (http i)) as (logs & Hev & Hl).
  pose proof (attempt_result (timestamp s) (http i)) as Hm.
  destruct (attempt (timestamp s) (http i)) as [[ev cur] r].
  cbn [fst snd] in Hev, Hm. subst ev. cbn zeta. rewrite Hm.
  exists (logs ++ report_log r)%list. split.
  - rewrite forallb_app, Hl. destruct r; reflexivity.
  - destruct (message_of py_repr env (http i) =? previous_message s);
      cbn [fst app]; rewrite <- ?app_assoc; reflexivity.
Qed.

Lemma sleeps_app (a b : list event) :
  sleeps (a ++ b) = (sleeps a ++ sleeps b)%list.
Proof.
  induction a as [|e a IH]; [reflexivity|].
  destruct e; cbn [app sleeps]; rewrite ?IH; reflexivity.
Qed.

Lemma requests_app (a b : list event) :
  requests (a ++ b) = (requests a ++ requests b)%list.
Proof.
  induction a as [|e a IH]; [reflexivity|].
  destruct e; cbn [app requests]; rewrite ?IH; reflexivity.
Qed.

Lemma cycle_sleeps (i : cycle_input) (s : locals) :
  sleeps (events_of i s) = [RETRY_PERIOD].
Proof.
  destruct (cycle_events_shape i s) as (logs & Hl & ->).
  destruct (logs_are_silent logs Hl) as (_ & _ & Hs & _).
  cbn [sleeps]. rewrite !sleeps_app, Hs.
  destruct (message_of py_repr env (http i) =? previous_message s);
    [reflexivity|].
  destruct (telegram i); reflexivity.
Qed.

(** The memory after an iteration is the message of that iteration. *)
Lemma cycle_memory (i : cycle_input) (s : locals) :
  previous_message (after i s) = message_of py_repr env (http i).
Proof.
  destruct (cycle_dedup i s) as [_ H]. rewrite attempt_result in H.
  destruct H as [(He & _ & Hp) | (_ & _ & Hp)]; congruence.
Qed.

Lemma cycle_sends (i : cycle_input) (s : locals) :
  sends (events_of i s) =
  if message_of py_repr env (http i) =? previous_message s then []
  else [message_of py_repr env (http i)].
Proof.
  destruct (cycle_dedup i s) as [_ H]. rewrite attempt_result in H.
  destruct H as [(He & Hs & _) | (Hne & Hs & _)]; rewrite Hs.
  - rewrite He, String.eqb_refl. reflexivity.
  - apply String.eqb_neq in Hne. rewrite Hne. reflexivity.
Qed.

Lemma poll_loop_sends (inputs : list cycle_input) (s : locals) :
  sends (fst (poll_loop inputs s))
  = collapse (previous_message s) (messages_of py_repr env inputs).
Proof.
  revert s. induction inputs as [|i rest IH]; intros s; [reflexivity|].
  rewrite poll_loop_cons. cbn [fst messages_of map collapse].
  rewrite sends_app, cycle_sends, IH, cycle_memory.
  fold (messages_of py_repr env rest).
  destruct (message_of py_repr env (http i) =? previous_message s) eqn:E;
    [| reflexivity].
  apply String.eqb_eq in E. rewrite E. reflexivity.
Qed.

Lemma last_nonempty (x : string) (l : list string) (d d' : string) :
  last (x :: l) d = last (x :: l) d'.
Proof.
  revert x. induction l as [|y l IH]; intros x; [reflexivity|].
  change (last (y :: l) d = last (y :: l) d'). apply IH.
Qed.

Lemma poll_loop_memory (inputs : list cycle_input) (s : locals) :
  previous_message (snd (poll_loop inputs s))
  = last (messages_of py_repr env inputs) (previous_message s).
Proof.
  revert s. induction inputs as [|i rest IH]; intros s; [reflexivity|].
  rewrite poll_loop_cons. cbn [snd]. rewrite IH, cycle_memory.
  cbn [messages_of map]. fold (messages_of py_repr env rest).
  destruct (messages_of py_repr env rest) as [|m ms]; [reflexivity|].
  change (last (message_of py_repr env (http i) :: m :: ms) (previous_message s))
    with (last (m :: ms) (previous_message s)).
  apply last_nonempty.
Qed.

(** *** Start-up and cadence *)

Lemma getenv_truthy_iff (v : option string) :
  getenv_truthy v = true <-> exists s, v = Some s /\ s <> "".
Proof.
  destruct v as [s|]; cbn [getenv_truthy truthy].
  - split.
    + intros H. exists s. split; [reflexivity|]. intros ->. discriminate H.
    + intros (s' & [= <-] & Hne). apply negb_true_iff.
      apply String.eqb_neq. exact Hne.
  - split; [discriminate | intros (s & H & _); discriminate H].
Qed.

(** X1: [check_tokens] is true exactly when each of the three variables is
    set to a string that is not empty; a variable set to the empty string
    counts like one that is absent. *)
Theorem check_tokens_iff_all_nonempty :
  check_tokens env = true <->
  exists p t c,
    PRACTICUM_TOKEN env = Some p /\ TELEGRAM_TOKEN env = Some t /\
    TELEGRAM_CHAT_ID env = Some c /\ p <> "" /\ t <> "" /\ c <> "".
Proof.
  unfold check_tokens. cbn [forallb]. rewrite andb_true_r, !andb_true_iff.
  rewrite !getenv_truthy_iff. split.
  - intros ((p & Hp & Hpn) & (t & Ht & Htn) & (c & Hc & Hcn)).
    exists p, t, c. auto 10.
  - intros (p & t & c & Hp & Ht & Hc & Hpn & Htn & Hcn). eauto 10.
Qed.



Lemma poll_loop_requests_length (inputs : list cycle_input) (s : locals) :
  length (requests (fst (poll_loop inputs s))) = length inputs.
Proof.
  revert s. induction inputs as [|i rest IH]; intros s; [reflexivity|].
  rewrite poll_loop_cons. cbn [fst].
  rewrite requests_app, cycle_requests. cbn [app length]. now rewrite IH.
Qed.

Lemma poll_loop_sleeps (inputs : list cycle_input) (s : locals) :
  sleeps (fst (poll_loop inputs s)) = repeat RETRY_PERIOD (length inputs).
Proof.
  revert s. induction inputs as [|i rest IH]; intros s; [reflexivity|].
  rewrite poll_loop_cons. cbn [fst].
  rewrite sleeps_app, cycle_sleeps, IH. reflexivity.
Qed.

(** X3: no exception leaves an iteration, whatever the API and the
    Telegram client answer; an iteration starts with its one request and
    ends with its one sleep of [RETRY_PERIOD] seconds, so a run of n
    iterations makes n requests and sleeps n times 600 seconds. *)
Theorem one_request_and_one_sleep_per_iteration
  (i : cycle_input) (inputs : list cycle_input) (s : locals) :
  snd (cycle i s) = Ok tt /\
  (exists middle,
     events_of i s =
     (RequestsGet ENDPOINT (HEADERS env) (timestamp s) :: middle
      ++ [Sleep 600])%list
     /\ requests middle = [] /\ sleeps middle = []) /\
  length (requests (fst (poll_loop inputs s))) = length inputs /\
  sleeps (fst (poll_loop inputs s)) = repeat 600%Z (length inputs).
Proof.
  split; [exact (proj1 (cycle_dedup i s))|].
  split; [| split; [apply poll_loop_requests_length | apply poll_loop_sleeps]].
  destruct (cycle_events_shape i s) as (logs & Hl & ->).
  destruct (logs_are_silent logs Hl) as (_ & Hr & Hs & _).
  eexists. split; [rewrite app_assoc; reflexivity|].
  rewrite requests_app, sleeps_app, Hr, Hs.
  destruct (message_of py_repr env (http i) =? previous_message s);
    [split; reflexivity|].
  destruct (telegram i); split; reflexivity.
Qed.

(** *** The request *)

(** X4: [get_api_answer] returns a value exactly when the status is 200 and
    the body decodes, and the value is the decoded body; in every other case
    it raises.  Either way it has made exactly one request, with the cursor
    as parameters. *)
Theorem get_api_answer_returns_iff
  (ts : pyval) (o : http_outcome) (v : pyval) :
  (snd (get_api_answer ts o) = Ok v <-> o = Response 200 (Decoded v)) /\
  requests (fst (get_api_answer ts o)) = [ts].
Proof.
  unfold get_api_answer.
  destruct o as [err | code js]; cbn [io_bind io_emit io_raise app fst snd].
  - split; [split; discriminate | reflexivity].
  - destruct (code =? HTTPStatus_OK)%Z eqn:E; cbn [negb].
    + apply Z.eqb_eq in E. subst code.
      destruct js as [w | err]; cbn [io_ret io_raise app fst snd].
      * split; [| reflexivity].
        split; [intros [= ->]; reflexivity | intros [= ->]; reflexivity].
      * split; [split; discriminate | reflexivity].
    + cbn [fst snd]. split; [| reflexivity]. split; [discriminate|].
      intros [= -> _]. discriminate E.
Qed.

(** X5: on a status other than 200 [get_api_answer] raises a
    [ConnectionError] with the endpoint and the status in decimal, without
    decoding the body; the iteration reports it under the prefix of failure
    reports and leaves the cursor alone. *)
Theorem bad_status_report
  (ts : pyval) (code : Z) (json : json_outcome) (t : send_outcome)
  (s : locals) :
  code <> 200%Z ->
  let text :=
    "Эндпоинт https://practicum.yandex.ru/api/user_api/homework_statuses/" ++
    " недоступен. Код ответа API: " ++ str_of_int code in
  get_api_answer ts (Response code json)
  = ([RequestsGet ENDPOINT (HEADERS env) ts], Raise (ConnectionError text)) /\
  message_of py_repr env (Response code json)
  = "Сбой в работе программы: " ++ text /\
  timestamp (after {| http := Response code json; telegram := t |} s)
  = timestamp s.
Proof.
  intros Hcode text. apply Z.eqb_neq in Hcode.
  split; [| split].
  - unfold get_api_answer. cbn [io_bind io_emit io_raise app].
    unfold HTTPStatus_OK. rewrite Hcode. reflexivity.
  - unfold message_of, attempt, get_api_answer.
    cbn [io_bind io_emit io_raise app]. unfold HTTPStatus_OK.
    rewrite Hcode. reflexivity.
  - rewrite cycle_timestamp, attempt_cursor. cbn [http].
    unfold HTTPStatus_OK. rewrite Hcode. destruct json as [[] |]; reflexivity.
Qed.

(** *** Translation *)

(** X6: what [parse_status] raises for a mapping that has a name, by the
    first test that fails: no status, a [KeyError] naming the key; a falsy
    status (empty string, [None], zero, empty list or mapping, [False]), a
    [ValueError]; a status that is a non-empty list or mapping, the
    [TypeError] of hashing it; any other status outside the table, a
    [KeyError].  Nothing is logged in these cases. *)
Theorem parse_status_errors
  (d : list (string * pyval)) (name : pyval) :
  dict_get d "homework_name" = Some name ->
  (dict_get d "status" = None ->
   parse_status (PDict d)
   = ([], Raise (KeyError ("'Отсутствует ключ " ++ dq ++ "status" ++ dq ++ "'")))) /\
  (forall v, dict_get d "status" = Some v -> truthy v = false ->
   parse_status (PDict d)
   = ([], Raise (ValueError "Статус проверки работы пуст"))) /\
  (forall v, dict_get d "status" = Some v -> truthy v = true ->
   (exists l, v = PList l) \/ (exists m, v = PDict m) ->
   parse_status (PDict d)
   = ([], Raise (TypeError ("unhashable type: '" ++ type_name v ++ "'")))) /\
  (forall v, dict_get d "status" = Some v -> truthy v = true ->
   (forall l, v <> PList l) -> (forall m, v <> PDict m) ->
   v <> PStr "reviewing" -> v <> PStr "approved" -> v <> PStr "rejected" ->
   parse_status (PDict d)
   = ([], Raise (KeyError
                   "'Статус проверки не соответствует ожидаемым вариантам'"))).
Proof.
  intros Hn. unfold parse_status. rewrite (dict_get_truthy _ _ _ Hn).
  cbn [py_in py_getitem]. rewrite (dict_has_of_get _ _ _ Hn). cbn [bind negb].
  split; [| split; [| split]].
  - intros Hs. unfold dict_has. rewrite Hs. reflexivity.
  - intros v Hs Ht. rewrite (dict_has_of_get _ _ _ Hs), Hs.
    cbn [bind negb]. rewrite Ht. reflexivity.
  - intros v Hs Ht Hv. rewrite (dict_has_of_get _ _ _ Hs), Hs.
    cbn [bind negb]. rewrite Ht. cbn [negb].
    destruct Hv as [[l ->] | [m ->]]; reflexivity.
  - intros v Hs Ht Hl Hm H1 H2 H3. rewrite (dict_has_of_get _ _ _ Hs), Hs.
    cbn [bind negb]. rewrite Ht. cbn [negb].
    assert (Hk : in_verdicts v = Ok false).
    { destruct v; cbn [in_verdicts]; try reflexivity.
      - rewrite verdict_of_unknown; [reflexivity | | |]; congruence.
      - exfalso. exact (Hl l eq_refl).
      - exfalso. exact (Hm d0 eq_refl). }
    rewrite Hk. reflexivity.
Qed.

Lemma py_getitem_ok (c : pyval) (key : string) (v : pyval) :
  py_getitem c key = Ok v -> exists d, c = PDict d /\ dict_get d key = Some v.
Proof.
  destruct c; cbn [py_getitem]; try discriminate.
  destruct (dict_get d key) as [w|] eqn:E; [| discriminate].
  intros [= ->]. eauto.
Qed.

Lemma verdicts_getitem_ok (v : pyval) (verdict : string) :
  verdicts_getitem py_repr v = Ok verdict ->
  exists s, v = PStr s /\ verdict_of HOMEWORK_VERDICTS s = Some verdict.
Proof.
  destruct v; cbn [verdicts_getitem]; try discriminate.
  destruct (verdict_of HOMEWORK_VERDICTS s) as [t|] eqn:E; [| discriminate].
  intros [= ->]. eauto.
Qed.

(** X7: whenever [parse_status] returns, either its argument is falsy and
    the text is the fixed sentence, or its argument is a mapping with a
    name and a status that is a key of the verdict table, and the text is
    the template filled with that name and that verdict.  No other value
    (a string, a list, a number) ever yields a message. *)
Theorem parse_status_message_sound (hw : pyval) (m : string) :
  snd (parse_status hw) = Ok m ->
  (truthy hw = false /\ m = NOT_CHANGED) \/
  (exists d name status verdict,
     hw = PDict d /\
     dict_get d "homework_name" = Some name /\
     dict_get d "status" = Some (PStr status) /\
     verdict_of HOMEWORK_VERDICTS status = Some verdict /\
     m = "Изменился статус проверки работы " ++
         dq ++ py_format py_repr name ++ dq ++ ". " ++ verdict).
Proof.
  intros H. pose proof (parse_status_cases hw) as Hc. rewrite H in Hc.
  destruct Hc as [Hf | (_ & name & status & verdict & Hn & Hs & Hv & ->)];
    [left; exact Hf | right].
  destruct (py_getitem_ok _ _ _ Hn) as (d & -> & Hdn).
  destruct (py_getitem_ok _ _ _ Hs) as (d' & [= <-] & Hds).
  destruct (verdicts_getitem_ok _ _ Hv) as (st & -> & Hvs).
  exists d, name, st, verdict. repeat split; assumption.
Qed.

Lemma verdict_of_known (s v : string) :
  verdict_of HOMEWORK_VERDICTS s = Some v ->
  (s = "approved" /\ v = "Работа проверена: ревьюеру всё понравилось. Ура!") \/
  (s = "reviewing" /\ v = "Работа взята на проверку ревьюером.") \/
  (s = "rejected" /\ v = "Работа проверена: у ревьюера есть замечания.").
Proof.
  unfold HOMEWORK_VERDICTS. cbn [verdict_of].
  destruct ("approved" =? s) eqn:E1.
  { apply String.eqb_eq in E1. intros [= <-]. auto. }
  destruct ("reviewing" =? s) eqn:E2.
  { apply String.eqb_eq in E2. intros [= <-]. auto. }
  destruct ("rejected" =? s) eqn:E3.
  { apply String.eqb_eq in E3. intros [= <-]. auto. }
  discriminate.
Qed.

Lemma append_cancel_l (a x y : string) : a ++ x = a ++ y -> x = y.
Proof.
  induction a as [|c a IH]; cbn [append]; [auto|].
  intros [= H]. auto.
Qed.

Lemma parse_status_template
  (d : list (string * pyval)) (name : pyval) (status verdict : string) :
  dict_get d "homework_name" = Some name ->
  dict_get d "status" = Some (PStr status) ->
  verdict_of HOMEWORK_VERDICTS status = Some verdict ->
  snd (parse_status (PDict d)) = Ok (status_changed py_repr name verdict).
Proof.
  intros Hn Hs Hv.
  unfold parse_status. rewrite (dict_get_truthy _ _ _ Hn).
  cbn [py_in py_getitem]. rewrite (dict_has_of_get _ _ _ Hn), Hs, Hn.
  rewrite (dict_has_of_get _ _ _ Hs). cbn [bind negb].
  assert (Ht : truthy (PStr status) = true).
  { destruct status; [discriminate Hv | reflexivity]. }
  rewrite Ht. cbn [bind negb in_verdicts verdicts_getitem]. rewrite Hv.
  reflexivity.
Qed.

(** X8: two submissions with the same name and different statuses of the
    table are translated to different messages, so a change of status is
    never taken for a duplicate. *)
Theorem status_change_changes_message
  (d1 d2 : list (string * pyval)) (name : pyval) (s1 s2 v1 v2 : string) :
  dict_get d1 "homework_name" = Some name ->
  dict_get d2 "homework_name" = Some name ->
  dict_get d1 "status" = Some (PStr s1) ->
  dict_get d2 "status" = Some (PStr s2) ->
  verdict_of HOMEWORK_VERDICTS s1 = Some v1 ->
  verdict_of HOMEWORK_VERDICTS s2 = Some v2 ->
  s1 <> s2 ->
  exists m1 m2,
    snd (parse_status (PDict d1)) = Ok m1 /\
    snd (parse_status (PDict d2)) = Ok m2 /\ m1 <> m2.
Proof.
  intros Hn1 Hn2 Hs1 Hs2 Hv1 Hv2 Hne.
  exists (status_changed py_repr name v1), (status_changed py_repr name v2).
  split; [exact (parse_status_template _ _ _ _ Hn1 Hs1 Hv1)|].
  split; [exact (parse_status_template _ _ _ _ Hn2 Hs2 Hv2)|].
  unfold status_changed. intros H.
  do 4 apply append_cancel_l in H.
  destruct (verdict_of_known _ _ Hv1) as [[-> ->] | [[-> ->] | [-> ->]]];
    destruct (verdict_of_known _ _ Hv2) as [[-> ->] | [[-> ->] | [-> ->]]];
    try (apply Hne; reflexivity); discriminate H.
Qed.

(** *** Deduplication over a run *)

(** X9: after every iteration Last-Sent Memory holds the message of that
    iteration, sent just now or equal to what was there; so after a run it
    holds the message of the last iteration, and an iteration is silent
    exactly when its message is the one of the iteration before. *)
Theorem memory_is_latest_message
  (i : cycle_input) (inputs : list cycle_input) (s : locals) :
  previous_message (after i s) = message_of py_repr env (http i) /\
  previous_message (snd (poll_loop inputs s))
  = last (messages_of py_repr env inputs) (previous_message s) /\
  (sends (events_of i s) = []
   <-> message_of py_repr env (http i) = previous_message s).
Proof.
  split; [apply cycle_memory | split; [apply poll_loop_memory|]].
  rewrite cycle_sends.
  destruct (message_of py_repr env (http i) =? previous_message s) eqn:E.
  - apply String.eqb_eq in E. tauto.
  - apply String.eqb_neq in E. split; [discriminate | contradiction].
Qed.


Lemma collapse_constant (m : string) (l : list string) :
  Forall (fun x => x = m) l -> collapse m l = [].
Proof.
  induction 1 as [|x l -> _ IH]; [reflexivity|].
  cbn [collapse]. rewrite String.eqb_refl. exact IH.
Qed.

(** X11: while the API keeps answering the same, be it a status or a
    failure such as a time-out, a run that starts sends its message once,
    in the first iteration, however many iterations follow. *)
Theorem persistent_answer_is_sent_once
  (h : http_outcome) (now : Z) (inputs : list cycle_input) :
  inputs <> [] ->
  Forall (fun i => http i = h) inputs ->
  sends (fst (poll_loop inputs (initial_locals now)))
  = [message_of py_repr env h].
Proof.
  intros Hne Hall. rewrite poll_loop_sends.
  destruct inputs as [|i rest]; [contradiction|].
  inversion Hall as [|? ? Hi Hrest]; subst.
  cbn [messages_of map initial_locals previous_message collapse].
  destruct (message_of py_repr env (http i) =? "") eqn:E.
  { apply String.eqb_eq in E. exfalso. exact (message_of_nonempty _ E). }
  f_equal. apply collapse_constant.
  apply Forall_map. revert Hrest. apply Forall_impl.
  intros a ->. reflexivity.
Qed.

Lemma attempt_outcome (ts : pyval) (o : http_outcome) :
  snd (attempt ts o) = snd (attempt PNone o).
Proof.
  unfold attempt, get_api_answer.
  destruct o as [err | code js]; cbn [io_bind io_emit io_raise app snd].
  - reflexivity.
  - destruct (negb (code =? HTTPStatus_OK)%Z); [reflexivity|].
    destruct js as [v | err]; cbn [io_ret io_raise app snd]; [| reflexivity].
    destruct (py_get v "current_date"); [| reflexivity].
    destruct (check_response v) as [hw | e]; [| reflexivity].
    destruct (parse_status hw); reflexivity.
Qed.

Lemma attempt_ok_message (o : http_outcome) (m : string) :
  snd (attempt PNone o) = Ok m ->
  m = NOT_CHANGED \/ exists name verdict, m = status_changed py_repr name verdict.
Proof.
  unfold attempt.
  destruct (get_api_answer PNone o) as [ev [response | e]]; [| discriminate].
  destruct (py_get response "current_date"); [| discriminate].
  destruct (check_response response) as [hw | e]; [| discriminate].
  pose proof (parse_status_cases hw) as Hc.
  destruct (parse_status hw) as [ev' [m' | e]]; cbn [snd] in *; [| discriminate].
  intros [= <-].
  destruct Hc as [[_ ->] | (_ & n & st & v & _ & _ & _ & ->)]; eauto.
Qed.

Lemma failure_report_not_status (e : exn) (m : string) :
  m = NOT_CHANGED \/ (exists name verdict, m = status_changed py_repr name verdict) ->
  failure_report e <> m.
Proof.
  intros [-> | (n & v & ->)]; unfold failure_report, NOT_CHANGED, status_changed;
    cbn [append]; discriminate.
Qed.

Lemma chain_outcomes_differ (h1 h2 : http_outcome) :
  chain_fails py_repr env h1 <> chain_fails py_repr env h2 ->
  message_of py_repr env h1 <> message_of py_repr env h2.
Proof.
  unfold chain_fails, message_of.
  destruct (snd (attempt PNone h1)) as [m1 | e1] eqn:E1;
    destruct (snd (attempt PNone h2)) as [m2 | e2] eqn:E2;
    cbn [candidate]; intros Hk; try (exfalso; apply Hk; reflexivity).
  - intros H. symmetry in H. revert H.
    apply failure_report_not_status. exact (attempt_ok_message _ _ E1).
  - apply failure_report_not_status. exact (attempt_ok_message _ _ E2).
Qed.

(** X12: a failure report is never equal to a status message.  So the
    iteration after a failed one that succeeds, and the iteration after a
    successful one that fails, always notify the user, with the message of
    the new state. *)
Theorem outcome_change_is_notified
  (h1 h2 : http_outcome) (t1 t2 : send_outcome) (s : locals) :
  chain_fails py_repr env h1 <> chain_fails py_repr env h2 ->
  sends (events_of {| http := h2; telegram := t2 |}
           (after {| http := h1; telegram := t1 |} s))
  = [message_of py_repr env h2].
Proof.
  intros Hk. rewrite cycle_sends, cycle_memory. cbn [http].
  destruct (message_of py_repr env h2 =? message_of py_repr env h1) eqn:E;
    [| reflexivity].
  apply String.eqb_eq in E. exfalso.
  exact (chain_outcomes_differ h1 h2 Hk (eq_sym E)).
Qed.

(** X13: a failed iteration writes its report to the log at the error
    level every time, also when the report equals Last-Sent Memory and is
    therefore not sent. *)
Theorem failure_is_logged_every_iteration (i : cycle_input) (s : locals) :
  chain_fails py_repr env (http i) = true ->
  In (Log ERROR (message_of py_repr env (http i))) (events_of i s) /\
  (previous_message s = message_of py_repr env (http i) ->
   sends (events_of i s) = []).
Proof.
  intros Hf. split.
  - unfold events_of. rewrite cycle_closed_form.
    unfold chain_fails in Hf. unfold message_of.
    pose proof (attempt_outcome (timestamp s) (http i)) as Ho.
    destruct (attempt (timestamp s) (http i)) as [[ev cur] r].
    cbn [snd] in Ho. subst r.
    destruct (snd (attempt PNone (http i))) as [m | e]; [discriminate Hf|].
    cbn zeta. cbn [candidate report_log].
    destruct (failure_report e =? previous_message s); cbn [fst];
      apply in_or_app; right; left; reflexivity.
  - intros Hp. rewrite cycle_sends, Hp, String.eqb_refl. reflexivity.
Qed.

(** *** The pipeline of an iteration *)

(** X14: for a 200 whose body decodes to a mapping with a list under
    [homeworks], the message of the iteration is decided by the first
    element of the list alone: it is what [parse_status] makes of it, or the
    report of what [parse_status] raises; with an empty list it is the
    fixed sentence.  The other elements and the other keys play no part. *)
Theorem message_of_well_shaped_response
  (d : list (string * pyval)) (l : list pyval) :
  dict_get d "homeworks" = Some (PList l) ->
  message_of py_repr env (Response 200 (Decoded (PDict d)))
  = match l with
    | [] => "Статус проверки работы не изменился"
    | first :: _ =>
        match snd (parse_status first) with
        | Ok m => m
        | Raise e => "Сбой в работе программы: " ++ str_exn e
        end
    end.
Proof.
  intros Hd. unfold message_of, attempt, get_api_answer.
  cbn [io_bind io_emit io_ret app py_get negb Z.eqb HTTPStatus_OK Pos.eqb].
  assert (Hc : check_response (PDict d)
               = Ok (match l with [] => PDict [] | first :: _ => first end)).
  { unfold check_response. cbn [py_in py_getitem].
    rewrite (dict_has_of_get _ _ _ Hd), Hd. destruct l; reflexivity. }
  rewrite Hc. destruct l as [|first rest].
  - reflexivity.
  - destruct (parse_status first) as [ev [m | e]]; reflexivity.
Qed.

(** X15: a 200 whose body decodes to something that is not a mapping (a
    list, a string, a number, [null]) is reported as the [AttributeError]
    of [response.get], which comes before [check_response] and its own
    [TypeError] for that case; the cursor stays. *)
Theorem non_mapping_body_report
  (v : pyval) (t : send_outcome) (s : locals) :
  (forall d, v <> PDict d) ->
  message_of py_repr env (Response 200 (Decoded v))
  = "Сбой в работе программы: '" ++ type_name v ++
    "' object has no attribute 'get'" /\
  check_response v
  = Raise (TypeError ("Некорректный тип данных: " ++ class_repr v)) /\
  message_of py_repr env (Response 200 (Decoded v))
  <> failure_report (TypeError ("Некорректный тип данных: " ++ class_repr v)) /\
  timestamp (after {| http := Response 200 (Decoded v); telegram := t |} s)
  = timestamp s.
Proof.
  intros Hnd.
  assert (Hm : message_of py_repr env (Response 200 (Decoded v))
               = "Сбой в работе программы: '" ++ type_name v ++
                 "' object has no attribute 'get'").
  { destruct v; try reflexivity. exfalso. exact (Hnd d eq_refl). }
  split; [exact Hm|]. split; [| split].
  - destruct v; try reflexivity. exfalso. exact (Hnd d eq_refl).
  - rewrite Hm. unfold failure_report, str_exn. cbn [append]. discriminate.
  - rewrite cycle_timestamp, attempt_cursor. cbn [http].
    destruct v; try reflexivity. exfalso. exact (Hnd d eq_refl).
Qed.

(** *** The cursor and the routing over a run *)

Lemma cycle_keeps_cursor (i : cycle_input) (s : locals) :
  yields_mapping (http i) = false -> timestamp (after i s) = timestamp s.
Proof.
  intros Hy. rewrite cycle_timestamp, attempt_cursor.
  destruct (http i) as [err | code [[] | err]]; try reflexivity.
  cbn [yields_mapping] in Hy. rewrite Hy. reflexivity.
Qed.

(** X16: as long as no fetch returns a mapping (the request raises, the
    status is not 200, the body does not decode or is not a mapping), every
    iteration asks again with the same cursor, and the cursor is still that
    one afterwards. *)
Theorem cursor_kept_while_fetch_fails
  (inputs : list cycle_input) (s : locals) :
  forallb (fun i => negb (yields_mapping (http i))) inputs = true ->
  requests (fst (poll_loop inputs s)) = repeat (timestamp s) (length inputs) /\
  timestamp (snd (poll_loop inputs s)) = timestamp s.
Proof.
  revert s. induction inputs as [|i rest IH]; intros s H.
  - split; reflexivity.
  - cbn [forallb] in H. apply andb_prop in H. destruct H as [Hi Hrest].
    apply negb_true_iff in Hi.
    rewrite poll_loop_cons. cbn [fst snd length repeat].
    rewrite requests_app, cycle_requests.
    destruct (IH (after i s) Hrest) as [Hr Ht].
    rewrite Hr, Ht, (cycle_keeps_cursor i s Hi). split; reflexivity.
Qed.

Lemma cycle_well_routed (i : cycle_input) (s : locals) :
  Forall (well_routed env) (events_of i s).
Proof.
  destruct (cycle_events_shape i s) as (logs & Hl & ->).
  destruct (logs_are_silent logs Hl) as (_ & _ & _ & Hlogs).
  constructor; [split; reflexivity|].
  apply Forall_app. split; [exact Hlogs|].
  apply Forall_app. split; [| repeat constructor].
  destruct (message_of py_repr env (http i) =? previous_message s);
    [constructor|].
  destruct (telegram i); repeat constructor.
Qed.

(** X17: every request of a run goes to [ENDPOINT] with the header
    [OAuth <PRACTICUM_TOKEN>], and every message to [TELEGRAM_CHAT_ID]:
    nothing the API answers can redirect either. *)
Theorem run_is_well_routed (now : Z) (inputs : list cycle_input) (s : locals) :
  Forall (well_routed env) (fst (poll_loop inputs s)) /\
  Forall (well_routed env) (main py_repr env now inputs).
Proof.
  assert (Hloop : forall s0, Forall (well_routed env) (fst (poll_loop inputs s0))).
  { induction inputs as [|i rest IH]; intros s0; [constructor|].
    rewrite poll_loop_cons. cbn [fst]. apply Forall_app.
    split; [apply cycle_well_routed | apply IH]. }
  split; [apply Hloop|].
  unfold main. destruct (check_tokens env); cbn [negb].
  - constructor; [exact I|]. constructor; [exact I|]. apply Hloop.
  - repeat constructor.
Qed.

End Properties.

(** ** The claims at concrete inputs *)

(** C2 as stated fails: answered with [current_date] 300 and a submission
    of status "bogus", validation succeeds, translation raises, and the
    cursor has moved from 200 to 300 all the same. *)
Lemma cursor_advances_when_translation_fails :
  timestamp after_B = from_date_params (PInt 200) /\
  check_response response_C = Ok (submission "hw1" "bogus") /\
  parse_status example_repr (submission "hw1" "bogus")
  = ([], Raise (KeyError
                  "'Статус проверки не соответствует ожидаемым вариантам'")) /\
  timestamp (after example_repr example_env (answered response_C) after_B)
  = from_date_params (PInt 300) /\
  timestamp (after example_repr example_env (answered response_C) after_B)
  <> timestamp after_B.
Proof.
  repeat split; try (vm_compute; reflexivity).
  vm_compute. discriminate.
Qed.

(** C3 as stated fails: when the memory already holds the message, as after
    a first iteration with the same answer, two more iterations with that
    answer invoke the Notifier zero times, not once. *)
Lemma third_identical_answer_sends_nothing :
  previous_message after_B = message_B /\
  sends (fst (poll_loop example_repr example_env
                [answered response_B; answered response_B] after_B)) = [] /\
  length (sends (fst (poll_loop example_repr example_env
                        [answered response_B; answered response_B] after_B)))
  <> 1.
Proof.
  repeat split; try (vm_compute; reflexivity).
  vm_compute. discriminate.
Qed.

(** C4 as stated fails: for the submission "hw1" with status "approved" the
    text returned is the Russian one of the source, not the English one. *)
Lemma parse_status_text_is_the_one_of_the_source :
  snd (parse_status example_repr (submission "hw1" "approved")) = Ok message_B /\
  snd (parse_status example_repr (submission "hw1" "approved"))
  <> Ok ("Status changed for submission " ++ dq ++ "hw1" ++ dq ++
         ". Reviewed: the reviewer liked everything. Success!").
Proof.
  split; [vm_compute; reflexivity|].
  vm_compute. discriminate.
Qed.

(** C6 as stated fails: the send of the first message fails with
    [TelegramError], and Last-Sent Memory has changed from the empty string
    to the undelivered text. *)
Lemma undelivered_message_is_remembered :
  sends (events_of example_repr example_env
           (answered_undelivered response_B) (initial_locals 100))
  = [message_B] /\
  In (Log ERROR "Ошибка отправки сообщения: Timed out")
     (events_of example_repr example_env
        (answered_undelivered response_B) (initial_locals 100)) /\
  previous_message (initial_locals 100) = "" /\
  previous_message (after example_repr example_env
                      (answered_undelivered response_B) (initial_locals 100))
  = message_B /\
  previous_message (after example_repr example_env
                      (answered_undelivered response_B) (initial_locals 100))
  <> previous_message (initial_locals 100).
Proof.
  repeat split; try (vm_compute; reflexivity).
  - vm_compute. tauto.
  - vm_compute. discriminate.
Qed.

(** C7 as stated fails: [homeworks] holds one element, an empty mapping,
    which has no name; validation returns it, and translation answers
    "status did not change" without raising. *)
Lemma empty_record_reads_as_no_submission :
  check_response response_empty_record = Ok (PDict []) /\
  parse_status example_repr (PDict [])
  = ([Log DEBUG NOT_CHANGED], Ok NOT_CHANGED) /\
  message_of example_repr example_env
    (Response 200 (Decoded response_empty_record))
  = "Статус проверки работы не изменился".
Proof. repeat split; vm_compute; reflexivity. Qed.

(** The theorems that have premises, applied where the premises hold. *)

Lemma parse_status_verdicts_witness :
  (dict_get [("homework_name", PStr "hw1"); ("status", PStr "approved")]
            "homework_name" = Some (PStr "hw1") /\
   dict_get [("homework_name", PStr "hw1"); ("status", PStr "approved")]
            "status" = Some (PStr "approved") /\
   verdict_of HOMEWORK_VERDICTS "approved"
   = Some "Работа проверена: ревьюеру всё понравилось. Ура!") /\
  parse_status example_repr (submission "hw1" "approved")
  = ([Log DEBUG message_B], Ok message_B) /\
  exists e, parse_status example_repr (submission "hw1" "bogus") = ([], Raise e).
Proof.
  split; [repeat split |].
  split.
  - apply (proj1 (proj2 (parse_status_verdicts example_repr))
             [("homework_name", PStr "hw1"); ("status", PStr "approved")]
             (PStr "hw1") "approved"
             "Работа проверена: ревьюеру всё понравилось. Ура!");
      reflexivity.
  - apply (proj2 (proj2 (parse_status_verdicts example_repr))
             [("homework_name", PStr "hw1"); ("status", PStr "bogus")]
             (PStr "bogus")); [reflexivity | | |]; discriminate.
Defined.

Lemma failed_send_is_remembered_witness :
  message_of example_repr example_env (Response 200 (Decoded response_B))
  <> previous_message (initial_locals 100) /\
  previous_message (after example_repr example_env
                      (answered_undelivered response_B) (initial_locals 100))
  = message_of example_repr example_env (Response 200 (Decoded response_B)) /\
  sends (events_of example_repr example_env (answered response_B)
           (after example_repr example_env
              (answered_undelivered response_B) (initial_locals 100))) = [].
Proof.
  assert (H : message_of example_repr example_env
                (Response 200 (Decoded response_B))
              <> previous_message (initial_locals 100))
    by (vm_compute; discriminate).
  split; [exact H|].
  pose proof (failed_send_is_remembered example_repr example_env
                (Response 200 (Decoded response_B)) "Timed out" Delivered
                (initial_locals 100) H) as (_ & _ & Hp & _ & Hs).
  split; [exact Hp | exact Hs].
Defined.

Lemma first_submission_pipeline_witness :
  dict_get [("current_date", PInt 200);
            ("homeworks", PList [submission "hw1" "approved"])] "homeworks"
  = Some (PList [submission "hw1" "approved"]) /\
  check_response response_B = Ok (submission "hw1" "approved").
Proof.
  split; [reflexivity|].
  apply (first_submission_pipeline example_repr
           [("current_date", PInt 200);
            ("homeworks", PList [submission "hw1" "approved"])]
           (submission "hw1" "approved") []).
  reflexivity.
Defined.

Lemma check_response_contract_witness :
  check_response (PList [])
  = Raise (TypeError "Некорректный тип данных: <class 'list'>") /\
  check_response (PDict [("current_date", PInt 100)])
  = Raise (KeyError ("'Отсутствует ключ " ++ dq ++ "homeworks" ++ dq ++ "'")) /\
  check_response (PDict [("homeworks", PNone)])
  = Raise (TypeError "Некорректный тип данных <class 'NoneType'>") /\
  check_response response_B = Ok (submission "hw1" "approved") /\
  check_response (PDict response_without_date) = Ok (PDict []).
Proof.
  destruct check_response_contract as (H1 & H2 & H3 & H4 & H5).
  split; [| split; [| split; [| split]]].
  - apply (H1 (PList [])). discriminate.
  - apply (H2 [("current_date", PInt 100)]). reflexivity.
  - apply (H3 [("homeworks", PNone)] PNone); [reflexivity | discriminate].
  - apply (H4 _ (submission "hw1" "approved") []). reflexivity.
  - apply (H5 response_without_date). reflexivity.
Defined.

Lemma missing_credential_stops_witness :
  (PRACTICUM_TOKEN env_without_chat = None \/
   TELEGRAM_TOKEN env_without_chat = None \/
   TELEGRAM_CHAT_ID env_without_chat = None) /\
  check_tokens env_without_chat = false /\
  sends (main example_repr env_without_chat 100 [answered response_B]) = [].
Proof.
  assert (H : PRACTICUM_TOKEN env_without_chat = None \/
              TELEGRAM_TOKEN env_without_chat = None \/
              TELEGRAM_CHAT_ID env_without_chat = None)
    by (right; right; reflexivity).
  split; [exact H|].
  pose proof (missing_credential_stops example_repr env_without_chat 100
                [answered response_B] (initial_locals 100) H)
    as (Hc & _ & _ & Hs & _).
  split; [exact Hc | exact Hs].
Defined.

Lemma missing_current_date_gives_None_witness :
  dict_get response_without_date "current_date" = None /\
  timestamp (after example_repr example_env
               (answered (PDict response_without_date)) after_B)
  = PDict [("from_date", PNone)].
Proof.
  split; [reflexivity|].
  apply (missing_current_date_gives_None example_repr example_env
           response_without_date Delivered (answered response_B) after_B).
  reflexivity.
Defined.

(** The further properties that have premises, applied where the premises
    hold. *)

Lemma bad_status_report_witness :
  404%Z <> 200%Z /\
  message_of example_repr example_env (Response 404 (DecodeFails "no body"))
  = "Сбой в работе программы: Эндпоинт " ++ ENDPOINT ++
    " недоступен. Код ответа API: 404".
Proof.
  assert (H : 404%Z <> 200%Z) by discriminate.
  split; [exact H|].
  exact (proj1 (proj2 (bad_status_report example_repr example_env PNone 404
                         (DecodeFails "no body") Delivered
                         (initial_locals 100) H))).
Defined.

Lemma parse_status_errors_witness :
  parse_status example_repr (PDict [("homework_name", PStr "hw1")])
  = ([], Raise (KeyError ("'Отсутствует ключ " ++ dq ++ "status" ++ dq ++ "'"))) /\
  parse_status example_repr (PDict (fields (PStr "hw1") (PStr "")))
  = ([], Raise (ValueError "Статус проверки работы пуст")) /\
  parse_status example_repr
    (PDict (fields (PStr "hw1") (PList [PStr "approved"])))
  = ([], Raise (TypeError "unhashable type: 'list'")) /\
  parse_status example_repr (PDict (fields (PStr "hw1") (PInt 1)))
  = ([], Raise (KeyError
                  "'Статус проверки не соответствует ожидаемым вариантам'")).
Proof.
  split; [| split; [| split]].
  - apply (proj1 (parse_status_errors example_repr
                    [("homework_name", PStr "hw1")] (PStr "hw1") eq_refl)).
    reflexivity.
  - apply (proj1 (proj2 (parse_status_errors example_repr
                           (fields (PStr "hw1") (PStr "")) (PStr "hw1")
                           eq_refl)) (PStr "")); reflexivity.
  - apply (proj1 (proj2 (proj2 (parse_status_errors example_repr
                           (fields (PStr "hw1") (PList [PStr "approved"]))
                           (PStr "hw1") eq_refl))) (PList [PStr "approved"]));
      [reflexivity | reflexivity | left; eexists; reflexivity].
  - apply (proj2 (proj2 (proj2 (parse_status_errors example_repr
                           (fields (PStr "hw1") (PInt 1))
                           (PStr "hw1") eq_refl))) (PInt 1));
      try reflexivity; discriminate.
Defined.

Lemma parse_status_message_sound_witness :
  snd (parse_status example_repr (submission "hw1" "approved")) = Ok message_B /\
  ((truthy (submission "hw1" "approved") = false /\ message_B = NOT_CHANGED) \/
   (exists d name status verdict,
      submission "hw1" "approved" = PDict d /\
      dict_get d "homework_name" = Some name /\
      dict_get d "status" = Some (PStr status) /\
      verdict_of HOMEWORK_VERDICTS status = Some verdict /\
      message_B = "Изменился статус проверки работы " ++
                  dq ++ py_format example_repr name ++ dq ++ ". " ++ verdict)).
Proof.
  assert (H : snd (parse_status example_repr (submission "hw1" "approved"))
              = Ok message_B) by reflexivity.
  split; [exact H|].
  exact (parse_status_message_sound example_repr _ _ H).
Defined.

Lemma status_change_changes_message_witness :
  "reviewing" <> "approved" /\
  exists m1 m2,
    snd (parse_status example_repr (submission "hw1" "reviewing")) = Ok m1 /\
    snd (parse_status example_repr (submission "hw1" "approved")) = Ok m2 /\
    m1 <> m2.
Proof.
  assert (H : "reviewing" <> "approved") by discriminate.
  split; [exact H|].
  exact (status_change_changes_message example_repr
           (fields (PStr "hw1") (PStr "reviewing"))
           (fields (PStr "hw1") (PStr "approved"))
           (PStr "hw1") "reviewing" "approved" _ _
           eq_refl eq_refl eq_refl eq_refl eq_refl eq_refl H).
Defined.

Lemma persistent_answer_is_sent_once_witness :
  [timed_out; timed_out; timed_out] <> [] /\
  Forall (fun i => http i = RequestException "Read timed out.")
         [timed_out; timed_out; timed_out] /\
  sends (fst (poll_loop example_repr example_env
                [timed_out; timed_out; timed_out] (initial_locals 100)))
  = [unbound_report].
Proof.
  assert (H1 : [timed_out; timed_out; timed_out] <> []) by discriminate.
  assert (H2 : Forall (fun i => http i = RequestException "Read timed out.")
                      [timed_out; timed_out; timed_out])
    by (repeat constructor).
  split; [exact H1 | split; [exact H2|]].
  exact (persistent_answer_is_sent_once example_repr example_env
           (RequestException "Read timed out.") 100 _ H1 H2).
Defined.

Lemma outcome_change_is_notified_witness :
  chain_fails example_repr example_env (RequestException "Read timed out.")
  <> chain_fails example_repr example_env (Response 200 (Decoded response_B)) /\
  sends (events_of example_repr example_env (answered response_B)
           (after example_repr example_env timed_out after_B))
  = [message_B].
Proof.
  assert (H : chain_fails example_repr example_env
                (RequestException "Read timed out.")
              <> chain_fails example_repr example_env
                   (Response 200 (Decoded response_B)))
    by (vm_compute; discriminate).
  split; [exact H|].
  exact (outcome_change_is_notified example_repr example_env _ _
           Delivered Delivered after_B H).
Defined.

Lemma failure_is_logged_every_iteration_witness :
  chain_fails example_repr example_env (http timed_out) = true /\
  In (Log ERROR unbound_report)
     (events_of example_repr example_env timed_out
        (after example_repr example_env timed_out (initial_locals 100))) /\
  sends (events_of example_repr example_env timed_out
           (after example_repr example_env timed_out (initial_locals 100)))
  = [].
Proof.
  assert (H : chain_fails example_repr example_env (http timed_out) = true)
    by reflexivity.
  split; [exact H|].
  pose proof (failure_is_logged_every_iteration example_repr example_env
                timed_out
                (after example_repr example_env timed_out (initial_locals 100))
                H) as [Hlog Hsilent].
  split; [exact Hlog | apply Hsilent; reflexivity].
Defined.

Lemma message_of_well_shaped_response_witness :
  dict_get [("current_date", PInt 200);
            ("homeworks", PList [submission "hw1" "approved";
                                 submission "hw0" "rejected"])] "homeworks"
  = Some (PList [submission "hw1" "approved"; submission "hw0" "rejected"]) /\
  message_of example_repr example_env
    (Response 200
       (Decoded (PDict [("current_date", PInt 200);
                        ("homeworks", PList [submission "hw1" "approved";
                                             submission "hw0" "rejected"])])))
  = message_B.
Proof.
  split; [reflexivity|].
  exact (message_of_well_shaped_response example_repr example_env
           [("current_date", PInt 200);
            ("homeworks", PList [submission "hw1" "approved";
                                 submission "hw0" "rejected"])]
           _ eq_refl).
Defined.

Lemma non_mapping_body_report_witness :
  (forall d, PList [] <> PDict d) /\
  message_of example_repr example_env (Response 200 (Decoded (PList [])))
  = "Сбой в работе программы: 'list' object has no attribute 'get'".
Proof.
  assert (H : forall d, PList [] <> PDict d) by discriminate.
  split; [exact H|].
  exact (proj1 (non_mapping_body_report example_repr example_env (PList [])
                  Delivered (initial_locals 100) H)).
Defined.

Lemma cursor_kept_while_fetch_fails_witness :
  forallb (fun i => negb (yields_mapping (http i)))
          [timed_out; answered (PList []); timed_out] = true /\
  requests (fst (poll_loop example_repr example_env
                   [timed_out; answered (PList []); timed_out] after_B))
  = [PDict [("from_date", PInt 200)]; PDict [("from_date", PInt 200)];
     PDict [("from_date", PInt 200)]].
Proof.
  split; [reflexivity|].
  exact (proj1 (cursor_kept_while_fetch_fails example_repr example_env
                  [timed_out; answered (PList []); timed_out] after_B
                  eq_refl)).
Defined.
